(** * Shiksha Setu front end: the chat session store

    A shallow embedding of [src/contexts/ChatContext.tsx] (the
    [ChatProvider] and its operations), of the part of
    [AuthContext.tsx] it depends on, and of the two components that
    call it with user input ([ChatInput.tsx] and the upload panel).

    React function components are re-created at every render, so each
    operation is a closure over the values of the render it was created
    in.  An operation therefore takes two states: [render], the snapshot
    its closure reads ([user], [chats], [currentChat]), and the live
    state [s] that its setters write.  A call made from the interface on
    the render that is on screen has [render = s].  Each [await] on the
    network splits an operation in two: the part that runs up to the
    request, and a [_settle] function that takes the reply and runs on
    whatever the live state is by then. *)

From Stdlib Require Import String Ascii List Bool Arith NArith Lia.
From Stdlib Require Import DecimalString DecimalPos DecimalN.
Import ListNotations.

Local Open Scope string_scope.
Local Open Scope list_scope.

(* ================================================================== *)
(** ** JavaScript values used by the components *)

Module Js.

(** Strings are sequences of code units; the model keeps the code
    units below 256.  [String.prototype.trim] removes white space and
    line terminators at both ends; below 256 these are TAB, LF, VT,
    FF, CR, SPACE and NBSP. *)
Definition is_whitespace (c : ascii) : bool :=
  let n := nat_of_ascii c in
  ((n =? 9) || (n =? 10) || (n =? 11) || (n =? 12) || (n =? 13)
   || (n =? 32) || (n =? 160))%nat.

Fixpoint trimStart (s : string) : string :=
  match s with
  | String c rest => if is_whitespace c then trimStart rest else s
  | EmptyString => EmptyString
  end.

Fixpoint trimEnd (s : string) : string :=
  match s with
  | String c rest =>
      match trimEnd rest with
      | EmptyString => if is_whitespace c then EmptyString else String c EmptyString
      | kept => String c kept
      end
  | EmptyString => EmptyString
  end.

Definition trim (s : string) : string := trimEnd (trimStart s).

(** [!s] on a string: only the empty string is falsy. *)
Definition not_ (s : string) : bool :=
  match s with EmptyString => true | String _ _ => false end.

(** A number inside a template literal: integers print in decimal. *)
Definition number_to_string (n : N) : string :=
  NilZero.string_of_uint (N.to_uint n).

Definition length_to_string {A} (l : list A) : string :=
  number_to_string (N.of_nat (length l)).

(** [arr.length > 0 ? arr[0] : null] *)
Definition first_or_null {A} (l : list A) : option A :=
  match l with x :: _ => Some x | [] => None end.

End Js.

(* ================================================================== *)
(** ** Data model ([Message], [Chat], [User], [File]) *)

Module Role.
Inductive t := user | assistant | system.
End Role.

Module Message.
Record t := mk
  { id : string;
    role : Role.t;
    content : string;
    timestamp : N }.
End Message.

Module Chat.
Record t := mk
  { id : string;
    title : string;
    messages : list Message.t;
    createdAt : N;
    updatedAt : N }.

(** [copy.messages = ms] on a spread copy of [c] *)
Definition set_messages (ms : list Message.t) (c : t) : t :=
  mk (id c) (title c) ms (createdAt c) (updatedAt c).

(** [copy.updatedAt = n] on a spread copy of [c] *)
Definition set_updatedAt (n : N) (c : t) : t :=
  mk (id c) (title c) (messages c) (createdAt c) n.
End Chat.

Module User.
Record t := mk { id : string; email : string; name : string }.
End User.

Module File.
Record t := mk { name : string; size : N }.
End File.

(* ================================================================== *)
(** ** What an operation shows and sends *)

Inductive Effect :=
| ToastError (msg : string)
| ToastSuccess (msg : string)
| ToastWarning (msg : string)
| ConsoleError (msg : string)
| Sleep (ms : N).

Inductive Method := GET | POST | PATCH | DELETE.

Inductive Payload :=
| NoBody
| JsonTitle (title : string)
| JsonContent (content : string)
| JsonUrls (urls : list string)
| FormFiles (files : list File.t).

Record Request := mkRequest
  { method : Method;
    url : string;
    bearer : string;
    body : Payload }.

(** What [await fetch(...)] followed by [await response.json()] can
    give: the fetch rejects, or it resolves to a response with its [ok]
    flag, whose [json()] either parses to a value of the expected shape
    ([Some]) or rejects ([None]). *)
Inductive Reply (A : Type) :=
| NetworkError
| Http (ok : bool) (json : option A).
Arguments NetworkError {A}.
Arguments Http {A} ok json.

(* ================================================================== *)
(** ** [ChatContext.tsx] and the part of [AuthContext.tsx] it reads *)

Module ChatContext.

(** The provider's five [useState] cells, with the two things it
    reads from outside: the [user] of [useAuth()] and the
    ["auth_token"] entry of [localStorage]. *)
Record State := mkState
  { user : option User.t;
    auth_token : option string;
    chats : list Chat.t;
    currentChat : option Chat.t;
    isLoading : bool;
    uploadingFiles : bool;
    processingFiles : bool }.

Definition setUser (u : option User.t) (s : State) : State :=
  mkState u (auth_token s) (chats s) (currentChat s)
          (isLoading s) (uploadingFiles s) (processingFiles s).
Definition setItem_auth_token (t : option string) (s : State) : State :=
  mkState (user s) t (chats s) (currentChat s)
          (isLoading s) (uploadingFiles s) (processingFiles s).
Definition setChats (f : list Chat.t -> list Chat.t) (s : State) : State :=
  mkState (user s) (auth_token s) (f (chats s)) (currentChat s)
          (isLoading s) (uploadingFiles s) (processingFiles s).
Definition setCurrentChat (c : option Chat.t) (s : State) : State :=
  mkState (user s) (auth_token s) (chats s) c
          (isLoading s) (uploadingFiles s) (processingFiles s).
Definition setIsLoading (b : bool) (s : State) : State :=
  mkState (user s) (auth_token s) (chats s) (currentChat s)
          b (uploadingFiles s) (processingFiles s).
Definition setUploadingFiles (b : bool) (s : State) : State :=
  mkState (user s) (auth_token s) (chats s) (currentChat s)
          (isLoading s) b (processingFiles s).
Definition setProcessingFiles (b : bool) (s : State) : State :=
  mkState (user s) (auth_token s) (chats s) (currentChat s)
          (isLoading s) (uploadingFiles s) b.

Definition backendUrl : string := "http://localhost:8000".

(** [const token = localStorage.getItem("auth_token"); if (!token) return;]
    gives the token only when it is present and not the empty string. *)
Definition getToken (s : State) : option string :=
  match auth_token s with
  | Some t => if Js.not_ t then None else Some t
  | None => None
  end.

(** The part of an operation up to its first [await fetch]: the new
    live state, what was shown, and the request it is suspended on
    ([None] when it returned without one). *)
Definition Started : Type := State * list Effect * option Request.

(** [prevChats.map((chat) => (chat.id === key ? updatedChat : chat))] *)
Definition replaceById (key : string) (updatedChat : Chat.t)
           (prevChats : list Chat.t) : list Chat.t :=
  map (fun chat => if Chat.id chat =? key then updatedChat else chat) prevChats.

(** [prevChats.filter((chat) => chat.id !== chatId)] *)
Definition removeById (chatId : string) (prevChats : list Chat.t) : list Chat.t :=
  filter (fun chat => negb (Chat.id chat =? chatId)) prevChats.

(** [currentChat?.id === chatId] *)
Definition currentIs (cur : option Chat.t) (chatId : string) : bool :=
  match cur with
  | Some c => Chat.id c =? chatId
  | None => false
  end.

(** *** fetchChats *)

Definition fetchChats (render s : State) : Started :=
  match getToken s with
  | None => (s, [], None)
  | Some token =>
      (s, [], Some (mkRequest GET (backendUrl ++ "/api/chats") token NoBody))
  end.

Definition fetchChats_settle (render : State) (r : Reply (list Chat.t))
           (s : State) : State * list Effect :=
  match r with
  | Http true (Some fetchedChats) =>
      let s1 := setChats (fun _ => fetchedChats) s in
      match currentChat render, fetchedChats with
      | None, first :: _ => (setCurrentChat (Some first) s1, [])
      | _, _ => (s1, [])
      end
  | Http false _ => (s, [])
  | _ => (s, [ConsoleError "Failed to fetch chats:";
              ToastError "Failed to load chat history"])
  end.

(** *** The effect on [user]: load the chats, or reset everything *)

Definition userEffect (render s : State) : Started :=
  match user render with
  | Some _ => fetchChats render s
  | None => (setCurrentChat None (setChats (fun _ => []) s), [], None)
  end.

(** *** createChat *)

Definition createChat (render s : State) : Started :=
  match user render with
  | None => (s, [ToastError "Please log in to create a chat"], None)
  | Some _ =>
      match getToken s with
      | None => (s, [], None)
      | Some token =>
          (s, [], Some (mkRequest POST (backendUrl ++ "/api/chats") token
                                  (JsonTitle "New Chat")))
      end
  end.

Definition createChat_settle (r : Reply Chat.t) (s : State)
  : State * list Effect :=
  match r with
  | Http true (Some newChat) =>
      (setCurrentChat (Some newChat)
         (setChats (fun prevChats => newChat :: prevChats) s), [])
  | _ => (s, [ConsoleError "Error creating chat:";
              ToastError "Failed to create new chat"])
  end.

(** *** sendMessage

    [Date.now()] is read three times, for the provisional identifier,
    the message timestamp and the copy's [updatedAt]. *)

Definition provisionalId (now : N) : string :=
  "temp-" ++ Js.number_to_string now.

Definition sendMessage (render : State) (content : string)
           (now_id now_ts now_upd : N) (s : State) : Started :=
  match user render, currentChat render with
  | Some _, Some cur =>
      match getToken s with
      | None => (s, [], None)
      | Some token =>
          let s1 := setIsLoading true s in
          let userMessage :=
            Message.mk (provisionalId now_id) Role.user content now_ts in
          let chatCopy :=
            Chat.set_updatedAt now_upd
              (Chat.set_messages (Chat.messages cur ++ [userMessage]) cur) in
          let s2 := setCurrentChat (Some chatCopy) s1 in
          (s2, [],
           Some (mkRequest POST
                   (backendUrl ++ "/api/chats/" ++ Chat.id cur ++ "/messages")
                   token (JsonContent content)))
      end
  | _, _ => (s, [ToastError "Please create a new chat first"], None)
  end.

Definition sendMessage_settle (r : Reply Chat.t) (s : State)
  : State * list Effect :=
  match r with
  | Http true (Some updatedChat) =>
      let s1 := setCurrentChat (Some updatedChat) s in
      let s2 := setChats (replaceById (Chat.id updatedChat) updatedChat) s1 in
      (setIsLoading false s2, [])
  | _ =>
      (setIsLoading false s,
       [ConsoleError "Error sending message:";
        ToastError "Failed to send message. Please try again."])
  end.

(** *** deleteChat *)

Definition deleteChat (render : State) (chatId : string) (s : State)
  : Started :=
  match getToken s with
  | None => (s, [], None)
  | Some token =>
      (s, [], Some (mkRequest DELETE (backendUrl ++ "/api/chats/" ++ chatId)
                              token NoBody))
  end.

Definition deleteChat_settle (render : State) (chatId : string)
           (r : Reply unit) (s : State) : State * list Effect :=
  match r with
  | Http true _ =>
      let s1 := setChats (removeById chatId) s in
      if currentIs (currentChat render) chatId then
        let remainingChats := removeById chatId (chats render) in
        (setCurrentChat (Js.first_or_null remainingChats) s1, [])
      else (s1, [])
  | _ => (s, [ConsoleError "Error deleting chat:";
              ToastError "Failed to delete chat"])
  end.

(** *** renameChat *)

Definition renameChat (render : State) (chatId newTitle : string)
           (s : State) : Started :=
  match getToken s with
  | None => (s, [], None)
  | Some token =>
      (s, [], Some (mkRequest PATCH (backendUrl ++ "/api/chats/" ++ chatId)
                              token (JsonTitle newTitle)))
  end.

Definition renameChat_settle (render : State) (chatId : string)
           (r : Reply Chat.t) (s : State) : State * list Effect :=
  match r with
  | Http true (Some updatedChat) =>
      let s1 := setChats (replaceById chatId updatedChat) s in
      if currentIs (currentChat render) chatId
      then (setCurrentChat (Some updatedChat) s1, [])
      else (s1, [])
  | _ => (s, [ConsoleError "Error renaming chat:";
              ToastError "Failed to rename chat"])
  end.

(** *** uploadDocuments

    Three stretches: up to the upload request; from its reply to the
    re-fetch of the chat (the fixed two-second wait touches no state,
    so it is recorded as an effect of this stretch); and from the
    re-fetched chat to the end.  The [finally] block closes whichever
    stretch ends the operation. *)

Definition uploadDocuments_finally (s : State) : State :=
  setProcessingFiles false (setUploadingFiles false s).

Definition uploadDocuments_catch (s : State) : Started :=
  (uploadDocuments_finally s,
   [ConsoleError "Error uploading documents:";
    ToastError "Failed to upload documents. Please try again."],
   None).

Definition uploadDocuments (render : State) (files : list File.t)
           (s : State) : Started :=
  match user render, currentChat render with
  | Some _, Some cur =>
      match getToken s with
      | None => (s, [], None)
      | Some token =>
          (setUploadingFiles true s, [],
           Some (mkRequest POST
                   (backendUrl ++ "/api/chats/" ++ Chat.id cur ++ "/documents")
                   token (FormFiles files)))
      end
  | _, _ => (s, [ToastError "Please create a new chat first"], None)
  end.

(** The reply to the upload; its JSON value is awaited and dropped. *)
Definition uploadDocuments_uploaded (render : State) (token : string)
           (r : Reply unit) (s : State) : Started :=
  match r, currentChat render with
  | Http true (Some _), Some cur =>
      (setProcessingFiles true s, [Sleep 2000],
       Some (mkRequest GET (backendUrl ++ "/api/chats/" ++ Chat.id cur)
                       token NoBody))
  | _, _ => uploadDocuments_catch s
  end.

(** The reply to the re-fetch of the chat. *)
Definition uploadDocuments_settle (files : list File.t)
           (r : Reply Chat.t) (s : State) : State * list Effect :=
  let processed :=
    ToastSuccess (Js.length_to_string files
                  ++ " document(s) processed and ready for querying") in
  match r with
  | Http true (Some updatedChat) =>
      let s1 := setCurrentChat (Some updatedChat) s in
      let s2 := setChats (replaceById (Chat.id updatedChat) updatedChat) s1 in
      (uploadDocuments_finally s2, [processed])
  | Http false _ => (uploadDocuments_finally s, [processed])
  | _ => let '(s', shown, _) := uploadDocuments_catch s in (s', shown)
  end.

(** *** addWebsites: the same three stretches *)

Definition addWebsites_finally (s : State) : State :=
  setProcessingFiles false s.

Definition addWebsites_catch (s : State) : Started :=
  (addWebsites_finally s,
   [ConsoleError "Error processing websites:";
    ToastError "Failed to process websites. Please try again."],
   None).

Definition addWebsites (render : State) (urls : list string)
           (s : State) : Started :=
  match user render, currentChat render with
  | Some _, Some cur =>
      match getToken s with
      | None => (s, [], None)
      | Some token =>
          (setProcessingFiles true s, [],
           Some (mkRequest POST
                   (backendUrl ++ "/api/chats/" ++ Chat.id cur ++ "/websites")
                   token (JsonUrls urls)))
      end
  | _, _ => (s, [ToastError "Please create a new chat first"], None)
  end.

(** The reply to the submission; only its [ok] flag is read. *)
Definition addWebsites_submitted (render : State) (token : string)
           (r : Reply unit) (s : State) : Started :=
  match r, currentChat render with
  | Http true _, Some cur =>
      (s, [Sleep 2500],
       Some (mkRequest GET (backendUrl ++ "/api/chats/" ++ Chat.id cur)
                       token NoBody))
  | _, _ => addWebsites_catch s
  end.

Definition addWebsites_settle (urls : list string)
           (r : Reply Chat.t) (s : State) : State * list Effect :=
  let processed :=
    ToastSuccess (Js.length_to_string urls
                  ++ " website(s) processed and ready for querying") in
  match r with
  | Http true (Some updatedChat) =>
      let s1 := setCurrentChat (Some updatedChat) s in
      let s2 := setChats (replaceById (Chat.id updatedChat) updatedChat) s1 in
      (addWebsites_finally s2, [processed])
  | Http false _ => (addWebsites_finally s, [processed])
  | _ => let '(s', shown, _) := addWebsites_catch s in (s', shown)
  end.

End ChatContext.

(* ================================================================== *)
(** ** [AuthContext.tsx]: logout, and the render that follows it *)

Module AuthContext.
Import ChatContext.

Definition logout (s : State) : State * list Effect :=
  (setUser None (setItem_auth_token None s),
   [ToastSuccess "Logged out successfully"]).

(** After [logout] the provider renders again; its effect depends on
    [user], so it runs when [user] changed, that is when a user was
    present before. *)
Definition logoutAndRender (s : State) : State * list Effect :=
  let '(s1, shown) := logout s in
  match user s with
  | Some _ => let '(s2, shown2, _) := userEffect s1 s1 in (s2, shown ++ shown2)
  | None => (s1, shown)
  end.

End AuthContext.

(* ================================================================== *)
(** ** [ChatInput.tsx]: the submit handler in front of [sendMessage] *)

Module ChatInput.
Import ChatContext.

(** Gives the new content of the text area and what [sendMessage] did;
    when the handler returns early the store is not called at all. *)
Definition handleSubmit (render : State) (message : string)
           (now_id now_ts now_upd : N) (s : State) : string * Started :=
  if Js.not_ (Js.trim message) || isLoading render
     || (match currentChat render with None => true | Some _ => false end)
  then (message, (s, [], None))
  else ("", sendMessage render message now_id now_ts now_upd s).

(** [handleKeyDown]: Enter without Shift submits; any other key is
    left to the text area. *)
Definition handleKeyDown (render : State) (key : string) (shiftKey : bool)
           (message : string) (now_id now_ts now_upd : N) (s : State)
  : string * Started :=
  if (key =? "Enter") && negb shiftKey
  then handleSubmit render message now_id now_ts now_upd s
  else (message, (s, [], None)).

End ChatInput.

(* ================================================================== *)
(** ** The upload panel: the pending batch of URLs *)

Module Url.

(** [new URL(input)] is the platform's constructor, not code of this
    repository.  The panel only needs to know whether it throws, so it
    is taken as a parameter of [UploadPanel] below.  What is written
    out here is the first step of the URL parser, which every input
    has to pass when no base is given: leading C0 controls and spaces
    are dropped, tabs and newlines are removed, and the input must then
    start with a scheme (a letter, then letters, digits, [+], [-] or
    [.], then a colon). *)

Definition is_c0_or_space (c : ascii) : bool := (nat_of_ascii c <=? 32)%nat.

Definition is_tab_or_newline (c : ascii) : bool :=
  let n := nat_of_ascii c in ((n =? 9) || (n =? 10) || (n =? 13))%nat.

Definition is_alpha (c : ascii) : bool :=
  let n := nat_of_ascii c in
  (((65 <=? n) && (n <=? 90)) || ((97 <=? n) && (n <=? 122)))%nat.

Definition is_digit (c : ascii) : bool :=
  let n := nat_of_ascii c in ((48 <=? n) && (n <=? 57))%nat.

Definition is_scheme_char (c : ascii) : bool :=
  let n := nat_of_ascii c in
  is_alpha c || is_digit c || ((n =? 43) || (n =? 45) || (n =? 46))%nat.

Fixpoint dropLeading (s : string) : string :=
  match s with
  | String c rest => if is_c0_or_space c then dropLeading rest else s
  | EmptyString => EmptyString
  end.

Fixpoint removeTabNewline (s : string) : string :=
  match s with
  | String c rest =>
      if is_tab_or_newline c then removeTabNewline rest
      else String c (removeTabNewline rest)
  | EmptyString => EmptyString
  end.

(** The scheme state: reads scheme characters up to the colon. *)
Fixpoint schemeState (s : string) : bool :=
  match s with
  | String c rest =>
      if (nat_of_ascii c =? 58)%nat then true
      else if is_scheme_char c then schemeState rest
      else false
  | EmptyString => false
  end.

Definition hasScheme (input : string) : bool :=
  match removeTabNewline (dropLeading input) with
  | String c rest => is_alpha c && schemeState rest
  | EmptyString => false
  end.

End Url.

Module UploadPanel.
Import ChatContext.

Record Panel := mkPanel
  { files : list File.t;
    urls : list string;
    currentUrl : string }.

Definition setFiles (fs : list File.t) (p : Panel) : Panel :=
  mkPanel fs (urls p) (currentUrl p).
Definition setUrls (us : list string) (p : Panel) : Panel :=
  mkPanel (files p) us (currentUrl p).
Definition setCurrentUrl (u : string) (p : Panel) : Panel :=
  mkPanel (files p) (urls p) u.

(** The three [useState] cells as the panel mounts. *)
Definition mounted : Panel := mkPanel [] [] "".

(** [arr.filter((_, i) => i !== index)] *)
Fixpoint removeAt {A} (index : nat) (l : list A) : list A :=
  match l, index with
  | [], _ => []
  | _ :: rest, O => rest
  | x :: rest, S i => x :: removeAt i rest
  end.

(** The calls [handleUpload] makes on the store, in order. *)
Inductive StoreCall :=
| CallUploadDocuments (files : list File.t)
| CallAddWebsites (urls : list string).

Section WithUrlConstructor.

(** [URL_ok input] holds when [new URL(input)] returns. *)
Variable URL_ok : string -> bool.

Definition handleAddUrl (p : Panel) : Panel * list Effect :=
  if Js.not_ (Js.trim (currentUrl p)) then (p, [])
  else if URL_ok (currentUrl p) then
    if (10 <=? length (urls p))%nat
    then (p, [ToastWarning "Maximum 10 URLs allowed"])
    else (setCurrentUrl "" (setUrls (urls p ++ [currentUrl p]) p), [])
  else (p, [ToastError "Please enter a valid URL"]).

End WithUrlConstructor.

Definition handleRemoveUrl (index : nat) (p : Panel) : Panel :=
  setUrls (removeAt index (urls p)) p.

(** [handleUpload]: the store's operations catch their own failures,
    so [addWebsites] always follows [uploadDocuments]; both receive the
    lists of the render the handler was created in. *)
Definition handleUpload (render : State) (p : Panel)
  : list StoreCall * list Effect :=
  match currentChat render with
  | None => ([], [ToastError "Please create a new chat first"])
  | Some _ =>
      if ((length (files p) =? 0) && (length (urls p) =? 0))%nat
      then ([], [ToastError "Please add files or URLs to upload"])
      else ((if (0 <? length (files p))%nat
             then [CallUploadDocuments (files p)] else [])
            ++ (if (0 <? length (urls p))%nat
                then [CallAddWebsites (urls p)] else []),
            [])
  end.

(** What the user and the handlers can do to the panel's URL cells:
    type in the input, press the add button, remove an entry, and the
    [setUrls([])] that follows a finished [addWebsites]. *)
Inductive Action :=
| Type_ (text : string)
| AddUrl
| RemoveUrl (index : nat)
| UrlsSent.

Definition act (URL_ok : string -> bool) (p : Panel) (a : Action) : Panel :=
  match a with
  | Type_ text => setCurrentUrl text p
  | AddUrl => fst (handleAddUrl URL_ok p)
  | RemoveUrl index => handleRemoveUrl index p
  | UrlsSent => setUrls [] p
  end.

Definition after (URL_ok : string -> bool) (actions : list Action) : Panel :=
  fold_left (act URL_ok) actions mounted.

(** *** The file cells

    As for the store, a handler reads the lists of the render it was
    created in ([render]) and writes the live panel. *)

(** [5 * 1024 * 1024] *)
Definition maxFileSize : N := 5 * 1024 * 1024.

Definition oversized (file : File.t) : bool :=
  (maxFileSize <? File.size file)%N.

Definition withinLimit (file : File.t) : bool :=
  (File.size file <=? maxFileSize)%N.

(** [handleFileChange]; [selected] is [e.target.files], [None] when it
    is null.  [10 - files.length] is only used when it is positive, so
    the truncated subtraction of [nat] reads the same. *)
Definition handleFileChange (render : Panel) (selected : option (list File.t))
           (p : Panel) : Panel * list Effect :=
  match selected with
  | None => (p, [])
  | Some newFiles =>
      let oversizedFiles := filter oversized newFiles in
      if (0 <? length oversizedFiles)%nat then
        let validFiles := filter withinLimit newFiles in
        (setFiles (files p ++ validFiles) p,
         [ToastError "Some files exceed the 5MB limit and were not added"])
      else if (10 <? length (files render) + length newFiles)%nat then
        let remainingSlots := (10 - length (files render))%nat in
        ((if (0 <? remainingSlots)%nat
          then setFiles (files p ++ firstn remainingSlots newFiles) p
          else p),
         [ToastWarning "Maximum 10 files allowed"])
      else (setFiles (files p ++ newFiles) p, [])
  end.

Definition handleRemoveFile (render : Panel) (index : nat) (p : Panel) : Panel :=
  setFiles (removeAt index (files render)) p.

(** What happens to the file cell: a selection in the file input, the
    removal of an entry, and the [setFiles([])] that follows a finished
    [uploadDocuments]; each on the render on screen. *)
Inductive FileAction :=
| SelectFiles (selected : option (list File.t))
| RemoveFile (index : nat)
| FilesSent.

Definition actFiles (p : Panel) (a : FileAction) : Panel :=
  match a with
  | SelectFiles selected => fst (handleFileChange p selected p)
  | RemoveFile index => handleRemoveFile p index p
  | FilesSent => setFiles [] p
  end.

Definition afterFiles (actions : list FileAction) : Panel :=
  fold_left actFiles actions mounted.


End UploadPanel.

(* ================================================================== *)
(** ** [ChatSidebar.tsx]: the handlers around the list of chats *)

Module ChatSidebar.
Import ChatContext.

(** The two [useState] cells of the inline title editor. *)
Record Editing := mkEditing
  { editingChatId : option string;
    editingTitle : string }.

Definition closed : Editing := mkEditing None "".

Definition setEditingChatId (i : option string) (e : Editing) : Editing :=
  mkEditing i (editingTitle e).
Definition setEditingTitle (t : string) (e : Editing) : Editing :=
  mkEditing (editingChatId e) t.

Definition handleCreateNewChat (render s : State) : Started :=
  createChat render s.

Definition handleChatSelect (chat : Chat.t) (s : State) : State :=
  setCurrentChat (Some chat) s.

Definition handleDeleteChat (render : State) (chatId : string) (s : State)
  : Started :=
  deleteChat render chatId s.

Definition startEditing (chat : Chat.t) (e : Editing) : Editing :=
  setEditingTitle (Chat.title chat) (setEditingChatId (Some (Chat.id chat)) e).

Definition handleSaveTitle (render : State) (chatId : string) (e : Editing)
           (s : State) : Editing * Started :=
  (setEditingChatId None e,
   if Js.not_ (Js.trim (editingTitle e)) then (s, [], None)
   else renameChat render chatId (editingTitle e) s).

Definition cancelEditing (e : Editing) : Editing :=
  setEditingChatId None e.

End ChatSidebar.

(* ================================================================== *)
(** ** [AuthContext.tsx]: the provider of the user *)

Module AuthProvider.

(** The provider's two [useState] cells and the ["auth_token"] entry of
    [localStorage]. *)
Record Auth := mkAuth
  { user : option User.t;
    isLoading : bool;
    auth_token : option string }.

Definition setUser (u : option User.t) (a : Auth) : Auth :=
  mkAuth u (isLoading a) (auth_token a).
Definition setIsLoading (b : bool) (a : Auth) : Auth :=
  mkAuth (user a) b (auth_token a).
Definition setItem (t : string) (a : Auth) : Auth :=
  mkAuth (user a) (isLoading a) (Some t).
Definition removeItem (a : Auth) : Auth :=
  mkAuth (user a) (isLoading a) None.

(** The cells as the provider mounts, over what the storage holds. *)
Definition mounting (stored : option string) : Auth := mkAuth None true stored.

Definition backendUrl : string := "http://localhost:8000".

Inductive AuthBody :=
| NoAuthBody
| LoginForm (username password : string)
| SignupJson (email password name : string).

Record AuthRequest := mkAuthRequest
  { method : Method;
    url : string;
    bearer : option string;
    body : AuthBody }.

(** [await fetch] and [await response.json()] with the message of the
    error when one of them rejects. *)
Inductive Fetched (A : Type) :=
| Rejects (message : string)
| Responds (ok : bool) (json : A + string).
Arguments Rejects {A} message.
Arguments Responds {A} ok json.

(** The two fields the provider reads in the body of a login or signup
    response; a field that is absent reads [undefined]. *)
Record TokenJson := mkTokenJson
  { access_token : option string;
    detail : option string }.

(** [undefined] where a string is expected is written ["undefined"]. *)
Definition stringOf (field : option string) : string :=
  match field with Some t => t | None => "undefined" end.

(** [x || fallback] on a string that may be undefined. *)
Definition orElse (field : option string) (fallback : string) : string :=
  match field with
  | Some t => if Js.not_ t then fallback else t
  | None => fallback
  end.

(** How a stretch of [login] or [signup] ends: suspended on a request,
    returned, or rejected with the error it rethrows. *)
Inductive Ending :=
| Awaiting (request : AuthRequest)
| Returned
| Thrown (message : string).

Definition Stretch : Type := Auth * list Effect * Ending.

Definition profileRequest (token : string) : AuthRequest :=
  mkAuthRequest GET (backendUrl ++ "/api/auth/me") (Some token) NoAuthBody.

(** *** fetchUserProfile: the reply to [GET /api/auth/me] *)

Definition fetchUserProfile_settle (r : Fetched User.t) (a : Auth)
  : Auth * list Effect :=
  match r with
  | Responds true (inl userData) => (setIsLoading false (setUser (Some userData) a), [])
  | Responds false _ => (setIsLoading false (removeItem a), [])
  | _ => (setIsLoading false (removeItem a),
          [ConsoleError "Failed to fetch user profile:"])
  end.

(** *** The effect run once at mount *)

Definition mountEffect (a : Auth) : Stretch :=
  match auth_token a with
  | Some token =>
      if Js.not_ token then (setIsLoading false a, [], Returned)
      else (a, [], Awaiting (profileRequest token))
  | None => (setIsLoading false a, [], Returned)
  end.

(** *** login and signup

    Both have the same three stretches: up to the request, from its
    reply to the request for the profile, and from the profile to the
    end.  They differ in the request and in the messages. *)

Definition rejected (fallback message : string) (a : Auth) : Stretch :=
  (setIsLoading false a,
   [ToastError (orElse (Some message) fallback)],
   Thrown message).

Definition granted (fallback : string) (r : Fetched TokenJson) (a : Auth)
  : Stretch :=
  match r with
  | Rejects message => rejected fallback message a
  | Responds false (inl errorData) =>
      rejected fallback (orElse (detail errorData) fallback) a
  | Responds _ (inr message) => rejected fallback message a
  | Responds true (inl data) =>
      let token := stringOf (access_token data) in
      (setItem token a, [], Awaiting (profileRequest token))
  end.

Definition welcomed (success : string) (r : Fetched User.t) (a : Auth)
  : Stretch :=
  let '(a1, shown) := fetchUserProfile_settle r a in
  (setIsLoading false a1, shown ++ [ToastSuccess success], Returned).

Definition login (email password : string) (a : Auth) : Stretch :=
  (setIsLoading true a, [],
   Awaiting (mkAuthRequest POST (backendUrl ++ "/api/auth/login") None
                           (LoginForm email password))).

Definition login_granted : Fetched TokenJson -> Auth -> Stretch :=
  granted "Failed to login".

Definition login_settle : Fetched User.t -> Auth -> Stretch :=
  welcomed "Logged in successfully".

Definition signup (email password name : string) (a : Auth) : Stretch :=
  (setIsLoading true a, [],
   Awaiting (mkAuthRequest POST (backendUrl ++ "/api/auth/signup") None
                           (SignupJson email password name))).

Definition signup_granted : Fetched TokenJson -> Auth -> Stretch :=
  granted "Failed to create account".

Definition signup_settle : Fetched User.t -> Auth -> Stretch :=
  welcomed "Account created successfully".

Definition logout (a : Auth) : Auth * list Effect :=
  (setUser None (removeItem a), [ToastSuccess "Logged out successfully"]).

(** What the chat provider below reads from this one: the user through
    [useAuth()] and the token through [localStorage]. *)
Definition provide (a : Auth) (s : ChatContext.State) : ChatContext.State :=
  ChatContext.setUser (user a) (ChatContext.setItem_auth_token (auth_token a) s).

End AuthProvider.

(* ================================================================== *)
(** ** Vocabulary of the statements *)

Import ChatContext.

(** The identifiers in the mapping, in display order. *)
Definition keys (s : State) : list string := map Chat.id (chats s).

Definition messageIds (c : Chat.t) : list string :=
  map Message.id (Chat.messages c).

(** The active reference is unset, or its identifier is a key. *)
Definition activeValid (s : State) : Prop :=
  match currentChat s with
  | None => True
  | Some c => In (Chat.id c) (keys s)
  end.

(** No session state at all. *)
Definition cleared (s : State) : Prop :=
  chats s = [] /\ currentChat s = None.

(** A reply that makes an operation fail: no answer, or a non-success
    status. *)
Definition refused {A} (r : Reply A) : Prop :=
  match r with
  | NetworkError => True
  | Http ok _ => ok = false
  end.

(** The sentence of the specification on the guard of [sendMessage],
    read on the store's own function at one call. *)
Definition sendMessageGuarded (s : State) (content : string)
           (now_id now_ts now_upd : N) : Prop :=
  currentChat s = None \/ Js.trim content = "" \/ isLoading s = true ->
  let '(s', _, request) := sendMessage s content now_id now_ts now_upd s in
  request = None /\ chats s' = chats s /\ currentChat s' = currentChat s.

(** An operation run on its own: called on the render that is on
    screen, with its replies applied before anything else happens.
    [Select] is the exposed [setCurrentChat]; [Activate] is the render
    after the authentication context set the user, whose effect loads
    the chats; [Logout] is the render after [logout]. *)
Inductive Operation :=
| Create (r : Reply Chat.t)
| Select (chat : Chat.t)
| Rename (chatId newTitle : string) (r : Reply Chat.t)
| Remove (chatId : string) (r : Reply unit)
| SendMessage (content : string) (now_id now_ts now_upd : N) (r : Reply Chat.t)
| IngestDocuments (files : list File.t) (r1 : Reply unit) (r2 : Reply Chat.t)
| IngestWebsites (urls : list string) (r1 : Reply unit) (r2 : Reply Chat.t)
| Activate (u : User.t) (r : Reply (list Chat.t))
| Logout.

(** Continue with [k] when the first part left a request pending. *)
Definition andThen (st : Started) (k : Request -> State -> Started) : Started :=
  let '(s1, shown, request) := st in
  match request with
  | Some req => let '(s2, shown2, next) := k req s1 in (s2, shown ++ shown2, next)
  | None => (s1, shown, None)
  end.

Definition finish (k : State -> State * list Effect) : Request -> State -> Started :=
  fun _ s => let '(s', shown) := k s in (s', shown, None).

Definition run (op : Operation) (s : State) : State :=
  fst (fst
    match op with
    | Create r => andThen (createChat s s) (finish (createChat_settle r))
    | Select chat => (setCurrentChat (Some chat) s, [], None)
    | Rename chatId newTitle r =>
        andThen (renameChat s chatId newTitle s)
                (finish (renameChat_settle s chatId r))
    | Remove chatId r =>
        andThen (deleteChat s chatId s) (finish (deleteChat_settle s chatId r))
    | SendMessage content now_id now_ts now_upd r =>
        andThen (sendMessage s content now_id now_ts now_upd s)
                (finish (sendMessage_settle r))
    | IngestDocuments files r1 r2 =>
        andThen
          (andThen (uploadDocuments s files s)
                   (fun req => uploadDocuments_uploaded s (bearer req) r1))
          (finish (uploadDocuments_settle files r2))
    | IngestWebsites urls r1 r2 =>
        andThen
          (andThen (addWebsites s urls s)
                   (fun req => addWebsites_submitted s (bearer req) r1))
          (finish (addWebsites_settle urls r2))
    | Activate u r =>
        let s1 := setUser (Some u) s in
        andThen (userEffect s1 s1) (finish (fetchChats_settle s1 r))
    | Logout => let '(s', shown) := AuthContext.logoutAndRender s in (s', shown, None)
    end).

(** The replies name the session that was asked for, and [Select] is
    given an entry of the list, as the sidebar does. *)
Definition namesSession (r : Reply Chat.t) (s : State) : Prop :=
  match r, currentChat s with
  | Http true (Some updatedChat), Some cur => Chat.id updatedChat = Chat.id cur
  | _, _ => True
  end.

Definition honoured (op : Operation) (s : State) : Prop :=
  match op with
  | Select chat => In chat (chats s)
  | SendMessage _ _ _ _ r => namesSession r s
  | IngestDocuments _ _ r2 => namesSession r2 s
  | IngestWebsites _ _ r2 => namesSession r2 s
  | Activate _ (Http true (Some fetchedChats)) =>
      match currentChat s with
      | Some cur => In (Chat.id cur) (map Chat.id fetchedChats)
      | None => True
      end
  | _ => True
  end.

(** Calls and successful replies of create, rename and remove, in the
    order in which they reach the store; each carries the render its
    closure was created in. *)
Inductive Crud :=
| CreateCalled (render : State)
| Created (newChat : Chat.t)
| RenameCalled (render : State) (chatId newTitle : string)
| Renamed (render : State) (chatId : string) (updatedChat : Chat.t)
| RemoveCalled (render : State) (chatId : string)
| Removed (render : State) (chatId : string) (json : option unit).

Definition crud (s : State) (e : Crud) : State :=
  match e with
  | CreateCalled render => fst (fst (createChat render s))
  | Created newChat => fst (createChat_settle (Http true (Some newChat)) s)
  | RenameCalled render chatId newTitle =>
      fst (fst (renameChat render chatId newTitle s))
  | Renamed render chatId updatedChat =>
      fst (renameChat_settle render chatId (Http true (Some updatedChat)) s)
  | RemoveCalled render chatId => fst (fst (deleteChat render chatId s))
  | Removed render chatId json =>
      fst (deleteChat_settle render chatId (Http true json) s)
  end.

Fixpoint createdIds (events : list Crud) : list string :=
  match events with
  | Created newChat :: rest => Chat.id newChat :: createdIds rest
  | _ :: rest => createdIds rest
  | [] => []
  end.

Fixpoint removedIds (events : list Crud) : list string :=
  match events with
  | Removed _ chatId _ :: rest => chatId :: removedIds rest
  | _ :: rest => removedIds rest
  | [] => []
  end.

(** The service's side of the history: a rename answers with the
    session it was asked to rename, and a create never hands out an
    identifier that was removed before. *)
Fixpoint serviceHistory (removedBefore : list string) (events : list Crud) : Prop :=
  match events with
  | Created newChat :: rest =>
      ~ In (Chat.id newChat) removedBefore /\ serviceHistory removedBefore rest
  | Renamed _ chatId updatedChat :: rest =>
      Chat.id updatedChat = chatId /\ serviceHistory removedBefore rest
  | Removed _ chatId _ :: rest => serviceHistory (chatId :: removedBefore) rest
  | _ :: rest => serviceHistory removedBefore rest
  | [] => True
  end.

(** Every reply an operation can be waiting for, with what its closure
    holds. *)
Inductive Settlement :=
| FetchedChats (render : State) (r : Reply (list Chat.t))
| CreateSettled (r : Reply Chat.t)
| SendSettled (r : Reply Chat.t)
| DeleteSettled (render : State) (chatId : string) (r : Reply unit)
| RenameSettled (render : State) (chatId : string) (r : Reply Chat.t)
| Uploaded (render : State) (token : string) (r : Reply unit)
| UploadSettled (files : list File.t) (r : Reply Chat.t)
| Submitted (render : State) (token : string) (r : Reply unit)
| WebsitesSettled (urls : list string) (r : Reply Chat.t).

Definition settle (k : Settlement) (s : State) : State :=
  match k with
  | FetchedChats render r => fst (fetchChats_settle render r s)
  | CreateSettled r => fst (createChat_settle r s)
  | SendSettled r => fst (sendMessage_settle r s)
  | DeleteSettled render chatId r => fst (deleteChat_settle render chatId r s)
  | RenameSettled render chatId r => fst (renameChat_settle render chatId r s)
  | Uploaded render token r => fst (fst (uploadDocuments_uploaded render token r s))
  | UploadSettled files r => fst (uploadDocuments_settle files r s)
  | Submitted render token r => fst (fst (addWebsites_submitted render token r s))
  | WebsitesSettled urls r => fst (addWebsites_settle urls r s)
  end.

Definition settlementRefused (k : Settlement) : Prop :=
  match k with
  | FetchedChats _ r => refused r
  | CreateSettled r | SendSettled r | RenameSettled _ _ r
  | UploadSettled _ r | WebsitesSettled _ r => refused r
  | DeleteSettled _ _ r | Uploaded _ _ r | Submitted _ _ r => refused r
  end.

(** Both ingestion flags are down. *)
Definition ingestionIdle (s : State) : Prop :=
  uploadingFiles s = false /\ processingFiles s = false.

(** What a failed rename shows. *)
Definition renameFailed : list Effect :=
  [ConsoleError "Error renaming chat:"; ToastError "Failed to rename chat"].

(** Every entry of a batch passed the URL constructor. *)
Definition allValid (URL_ok : string -> bool) (us : list string) : Prop :=
  Forall (fun u => URL_ok u = true) us.

(** A flag reads the same in [s'] as in [s]. *)
Definition sameResponding (s s' : State) : Prop := isLoading s' = isLoading s.
Definition sameUploading (s s' : State) : Prop := uploadingFiles s' = uploadingFiles s.
Definition sameProcessing (s s' : State) : Prop := processingFiles s' = processingFiles s.

(** What the operations show when they fail, and at their guard. *)
Definition noChatYet : list Effect :=
  [ToastError "Please create a new chat first"].

Definition sendFailed : list Effect :=
  [ConsoleError "Error sending message:";
   ToastError "Failed to send message. Please try again."].

Definition uploadFailed : list Effect :=
  [ConsoleError "Error uploading documents:";
   ToastError "Failed to upload documents. Please try again."].

Definition websitesFailed : list Effect :=
  [ConsoleError "Error processing websites:";
   ToastError "Failed to process websites. Please try again."].

Definition documentsProcessed (files : list File.t) : list Effect :=
  [ToastSuccess (Js.length_to_string files
                 ++ " document(s) processed and ready for querying")%string].

Definition websitesProcessed (urls : list string) : list Effect :=
  [ToastSuccess (Js.length_to_string urls
                 ++ " website(s) processed and ready for querying")%string].

(** A follow-up request of an ingestion: the re-read of the chat, with
    the token the operation took from the storage when it was called. *)
Definition rereadWith (token : string) (request : Request) : Prop :=
  bearer request = token
  /\ method request = GET
  /\ body request = NoBody
  /\ String.prefix (backendUrl ++ "/api/chats")%string (url request) = true.

(** A call that returned without a request and left the state alone. *)
Definition issuesNothing (st : Started) (s : State) : Prop :=
  snd st = None /\ fst (fst st) = s.

(** Any request of the call goes to the chat routes of the backend
    and carries the token found in the storage, which is not empty. *)
Definition authorised (s : State) (st : Started) : Prop :=
  forall request,
    snd st = Some request ->
    getToken s = Some (bearer request)
    /\ bearer request <> ""
    /\ String.prefix (backendUrl ++ "/api/chats")%string (url request) = true.

(** Sample values for the worked cases. *)
Module Sample.
Definition asha : User.t := User.mk "u1" "asha@example.com" "Asha".
Definition chatA : Chat.t := Chat.mk "A" "First" [] 10 10.
Definition chatB : Chat.t := Chat.mk "B" "Second" [] 20 20.
Definition question : Message.t := Message.mk "m1" Role.user "What is RAG?" 31.
Definition answer : Message.t :=
  Message.mk "m2" Role.assistant "Retrieval-augmented generation." 32.
Definition chatA' : Chat.t := Chat.mk "A" "First" [question; answer] 10 32.
(** Logged in, two chats, the first one active, nothing in flight. *)
Definition idle : State :=
  mkState (Some asha) (Some "token") [chatA; chatB] (Some chatA)
          false false false.
(** The same with the second chat active. *)
Definition idleB : State := setCurrentChat (Some chatB) idle.
(** The same while a reply is awaited. *)
Definition responding : State := setIsLoading true idle.
End Sample.

(* ================================================================== *)
(** ** Proof steps used throughout *)

Ltac unfold_setters :=
  unfold setChats, setCurrentChat, setIsLoading, setUploadingFiles,
    setProcessingFiles, setUser, setItem_auth_token in *.

Ltac store_simpl := unfold_setters; cbn [user auth_token chats currentChat
  isLoading uploadingFiles processingFiles fst snd] in *.

(** One case per shape of reply. *)
Ltac by_reply r :=
  destruct r as [|[|] [?|]]; cbn; store_simpl; auto.

(** The cells of the upload panel. *)
Ltac panel_simpl :=
  unfold UploadPanel.setFiles, UploadPanel.setUrls, UploadPanel.setCurrentUrl;
  cbn [fst snd UploadPanel.files UploadPanel.urls UploadPanel.currentUrl].

(** The sessions are those of a state whose active reference is valid. *)
Ltac still_valid Hcur :=
  unfold activeValid, keys in *; store_simpl; cbn; rewrite ?Hcur; assumption.

(* ================================================================== *)
(** ** Basic facts about the setters and the list updates *)

Lemma ids_replaceById key updatedChat prevChats :
  Chat.id updatedChat = key ->
  map Chat.id (replaceById key updatedChat prevChats) = map Chat.id prevChats.
Proof.
  intros Hid. unfold replaceById. induction prevChats as [|chat rest IH]; cbn.
  - reflexivity.
  - rewrite IH. destruct (Chat.id chat =? key) eqn:E; [|reflexivity].
    apply String.eqb_eq in E. now rewrite Hid, E.
Qed.

Lemma in_ids_replaceById_other key updatedChat prevChats k :
  k <> key -> In k (map Chat.id prevChats) ->
  In k (map Chat.id (replaceById key updatedChat prevChats)).
Proof.
  intros Hk. unfold replaceById. induction prevChats as [|chat rest IH]; cbn.
  - trivial.
  - intros [E | Hin]; [|right; auto].
    left. destruct (Chat.id chat =? key) eqn:Eq; [|assumption].
    apply String.eqb_eq in Eq. congruence.
Qed.

Lemma in_replaceById key updatedChat prevChats :
  In key (map Chat.id prevChats) ->
  In updatedChat (replaceById key updatedChat prevChats).
Proof.
  unfold replaceById. induction prevChats as [|chat rest IH]; cbn.
  - trivial.
  - intros [E | Hin]; [left | right; auto].
    rewrite E, String.eqb_refl. reflexivity.
Qed.

Lemma replaceById_hit updatedChat prevChats chat :
  In chat (replaceById (Chat.id updatedChat) updatedChat prevChats) ->
  Chat.id chat = Chat.id updatedChat -> chat = updatedChat.
Proof.
  unfold replaceById. intros Hin Hid.
  apply in_map_iff in Hin. destruct Hin as [old [Hold _]].
  destruct (Chat.id old =? Chat.id updatedChat) eqn:E.
  - now symmetry.
  - subst chat. apply String.eqb_neq in E. contradiction.
Qed.

Lemma ids_removeById chatId prevChats :
  map Chat.id (removeById chatId prevChats)
  = filter (fun k => negb (k =? chatId)) (map Chat.id prevChats).
Proof.
  unfold removeById. induction prevChats as [|chat rest IH]; cbn.
  - reflexivity.
  - destruct (Chat.id chat =? chatId); cbn; now rewrite IH.
Qed.

Lemma in_ids_removeById chatId prevChats k :
  In k (map Chat.id (removeById chatId prevChats))
  <-> In k (map Chat.id prevChats) /\ k <> chatId.
Proof.
  rewrite ids_removeById, filter_In, negb_true_iff, String.eqb_neq. tauto.
Qed.

Lemma first_or_null_in {A} (l : list A) x :
  Js.first_or_null l = Some x -> In x l.
Proof. destruct l; cbn; [discriminate | intros [= ->]; now left]. Qed.

(* ================================================================== *)
(** ** The guard of sendMessage *)

(** C1, as the specification words it, fails on the store's function:
    with a session active, a text of three spaces is sent to the
    service and echoed in the active session, and so is a text sent
    while the responding flag is already set. *)
Lemma sendMessage_not_guarded :
  ~ sendMessageGuarded Sample.idle "   " 41 42 43
  /\ ~ sendMessageGuarded Sample.responding "again" 41 42 43.
Proof.
  split; intros H.
  - destruct (H (or_intror (or_introl eq_refl))) as [Hreq _]. discriminate Hreq.
  - destruct (H (or_intror (or_intror eq_refl))) as [Hreq _]. discriminate Hreq.
Qed.

(** C1, amended: [sendMessage] itself rejects, with its message to
    the user, no request and the state unchanged, whenever the user or
    the active session is missing, and it looks neither at the text
    nor at the responding flag: with user, active session and token it
    raises the flag, echoes the provisional message and issues the
    request whatever they are.  The checks on a blank text and on the
    responding flag are those of the submit handler of the chat input,
    which then (and when no session is active) returns without calling
    the store: text area, state and network untouched. *)
Theorem sendMessage_rejected_before_request
        (render s : State) (message : string) (now_id now_ts now_upd : N) :
  (user render = None \/ currentChat render = None ->
   sendMessage render message now_id now_ts now_upd s
   = (s, [ToastError "Please create a new chat first"], None))
  /\ (currentChat render = None \/ Js.trim message = ""
      \/ isLoading render = true ->
      ChatInput.handleSubmit render message now_id now_ts now_upd s
      = (message, (s, [], None)))
  /\ (forall u cur token,
         user render = Some u -> currentChat render = Some cur ->
         getToken s = Some token ->
         let '(s', shown, request) :=
           sendMessage render message now_id now_ts now_upd s in
         request
         = Some (mkRequest POST
                   (backendUrl ++ "/api/chats/" ++ Chat.id cur ++ "/messages")%string
                   token (JsonContent message))
         /\ shown = []
         /\ isLoading s' = true
         /\ chats s' = chats s
         /\ exists echoed,
             currentChat s' = Some echoed
             /\ In (provisionalId now_id) (messageIds echoed)).
Proof.
  split; [|split].
  - unfold sendMessage. intros [Hu | Hc].
    + now rewrite Hu.
    + rewrite Hc. now destruct (user render).
  - intros H. unfold ChatInput.handleSubmit.
    destruct H as [H | [H | H]]; rewrite H; cbn.
    + now rewrite orb_true_r.
    + reflexivity.
    + now rewrite orb_true_r.
  - intros u cur token Hu Hc Ht. unfold sendMessage. rewrite Hu, Hc, Ht.
    split; [reflexivity | split; [reflexivity | split; [reflexivity | split]]].
    + reflexivity.
    + eexists. split; [reflexivity|].
      unfold messageIds. cbn. rewrite map_app. apply in_or_app. right. now left.
Qed.

Lemma sendMessage_rejected_before_request_witness :
  ChatInput.handleSubmit Sample.idle "   " 41 42 43 Sample.idle
  = ("   ", (Sample.idle, [], None))
  /\ ChatInput.handleSubmit Sample.responding "again" 41 42 43 Sample.responding
     = ("again", (Sample.responding, [], None))
  /\ sendMessage (setCurrentChat None Sample.idle) "hello" 41 42 43
                 (setCurrentChat None Sample.idle)
     = (setCurrentChat None Sample.idle,
        [ToastError "Please create a new chat first"], None)
  /\ sendMessage (setUser None Sample.idle) "hello" 41 42 43
                 (setUser None Sample.idle)
     = (setUser None Sample.idle,
        [ToastError "Please create a new chat first"], None)
  /\ isLoading (fst (fst (sendMessage Sample.responding "   " 41 42 43
                                      Sample.responding))) = true.
Proof.
  split; [|split; [|split; [|split]]].
  - apply (sendMessage_rejected_before_request Sample.idle Sample.idle "   ").
    right; left; reflexivity.
  - apply (sendMessage_rejected_before_request
             Sample.responding Sample.responding "again").
    right; right; reflexivity.
  - apply (sendMessage_rejected_before_request
             (setCurrentChat None Sample.idle) (setCurrentChat None Sample.idle)
             "hello" 41 42 43).
    right; reflexivity.
  - apply (sendMessage_rejected_before_request
             (setUser None Sample.idle) (setUser None Sample.idle)
             "hello" 41 42 43).
    left; reflexivity.
  - pose proof (proj2 (proj2 (sendMessage_rejected_before_request
                  Sample.responding Sample.responding "   " 41 42 43))
                  Sample.asha Sample.chatA "token" eq_refl eq_refl eq_refl) as H.
    destruct (sendMessage Sample.responding "   " 41 42 43 Sample.responding)
      as [[s' shown] request].
    destruct H as (_ & _ & Hflag & _). exact Hflag.
Defined.

(* ================================================================== *)
(** ** Reconciliation after a successful sendMessage *)

Lemma sendMessage_proceeds render content now_id now_ts now_upd s u cur token :
  user render = Some u -> currentChat render = Some cur ->
  getToken s = Some token ->
  sendMessage render content now_id now_ts now_upd s
  = (setCurrentChat
       (Some (Chat.set_updatedAt now_upd
                (Chat.set_messages
                   (Chat.messages cur
                    ++ [Message.mk (provisionalId now_id) Role.user content now_ts])
                   cur)))
       (setIsLoading true s),
     [],
     Some (mkRequest POST
             (backendUrl ++ "/api/chats/" ++ Chat.id cur ++ "/messages")
             token (JsonContent content))).
Proof. intros Hu Hc Ht. unfold sendMessage. now rewrite Hu, Hc, Ht. Qed.

(** C2: a successful sendMessage puts the service's snapshot in the
    place of the active session and of the stored session with its
    identifier, whatever happened to the state while the request was
    pending.  The provisional identifier, present in the active session
    after the call, is in neither afterwards (the service's snapshot
    being made of the service's own identifiers). *)
Theorem sendMessage_success_replaces_session
        (render s later : State) (content : string) (now_id now_ts now_upd : N)
        (u : User.t) (cur : Chat.t) (token : string) (updatedChat : Chat.t) :
  user render = Some u ->
  currentChat render = Some cur ->
  getToken s = Some token ->
  ~ In (provisionalId now_id) (messageIds updatedChat) ->
  let called := fst (fst (sendMessage render content now_id now_ts now_upd s)) in
  let settled := fst (sendMessage_settle (Http true (Some updatedChat)) later) in
  (exists echoed, currentChat called = Some echoed
                  /\ In (provisionalId now_id) (messageIds echoed))
  /\ currentChat settled = Some updatedChat
  /\ chats settled = replaceById (Chat.id updatedChat) updatedChat (chats later)
  /\ (In (Chat.id updatedChat) (keys later) -> In updatedChat (chats settled))
  /\ (forall chat, In chat (chats settled) ->
                   Chat.id chat = Chat.id updatedChat ->
                   chat = updatedChat
                   /\ Chat.messages chat = Chat.messages updatedChat
                   /\ ~ In (provisionalId now_id) (messageIds chat))
  /\ isLoading settled = false.
Proof.
  intros Hu Hc Ht Hfresh called settled. subst called settled.
  rewrite (sendMessage_proceeds _ _ _ _ _ _ _ _ _ Hu Hc Ht).
  cbn [sendMessage_settle fst]. store_simpl.
  split; [|split; [reflexivity|split; [reflexivity|split; [|split; [|reflexivity]]]]].
  - eexists. split; [reflexivity|].
    unfold messageIds. cbn. rewrite map_app. apply in_or_app. right. now left.
  - intros Hin. now apply in_replaceById.
  - intros chat Hin Hid.
    assert (E : chat = updatedChat) by (eapply replaceById_hit; eassumption).
    subst chat. split; [reflexivity | split; [reflexivity | exact Hfresh]].
Qed.

Lemma sendMessage_success_replaces_session_witness :
  let called := fst (fst (sendMessage Sample.idle "What is RAG?" 41 42 43 Sample.idle)) in
  let settled := fst (sendMessage_settle (Http true (Some Sample.chatA')) called) in
  currentChat settled = Some Sample.chatA'
  /\ chats settled = [Sample.chatA'; Sample.chatB]
  /\ isLoading settled = false.
Proof.
  intros called settled.
  destruct (sendMessage_success_replaces_session
              Sample.idle Sample.idle called "What is RAG?" 41 42 43
              Sample.asha Sample.chatA "token" Sample.chatA'
              eq_refl eq_refl eq_refl) as (_ & Hcur & Hchats & _ & _ & Hload).
  - cbn. intros [H | [H | []]]; discriminate H.
  - split; [exact Hcur | split; [exact Hchats | exact Hload]].
Defined.

(* ================================================================== *)
(** ** Busy flags at the end of an operation *)

Lemma uploadDocuments_finally_idle s : ingestionIdle (uploadDocuments_finally s).
Proof. split; reflexivity. Qed.

(** C3: whatever the reply and whatever the state it arrives in,
    sendMessage ends with the responding flag false, ingestDocuments
    ends (at the upload reply when that one fails, at the re-fetch
    otherwise) with both ingestion flags false, and addWebsites with
    its flag false.  Each of them ends either on its success (nothing
    more shown by sendMessage, the processed message by the two
    ingestions) or on a reported failure: the error on the console and
    the error message to the user; a call turned away for a missing
    user or active session shows its message to the user.  A call that
    is turned away issues no request and leaves the state, flags
    included, as it was; so an operation run on its own from flags
    that are false leaves them false, however it ends. *)
Theorem busy_flags_false_after_completion :
  (forall (r : Reply Chat.t) (s : State),
      isLoading (fst (sendMessage_settle r s)) = false)
  /\ (forall render token (r : Reply unit) (s : State),
         snd (uploadDocuments_uploaded render token r s) = None ->
         ingestionIdle (fst (fst (uploadDocuments_uploaded render token r s))))
  /\ (forall files (r : Reply Chat.t) (s : State),
         ingestionIdle (fst (uploadDocuments_settle files r s)))
  /\ (forall render token (r : Reply unit) (s : State),
         snd (addWebsites_submitted render token r s) = None ->
         processingFiles (fst (fst (addWebsites_submitted render token r s))) = false)
  /\ (forall urls (r : Reply Chat.t) (s : State),
         processingFiles (fst (addWebsites_settle urls r s)) = false)
  /\ (forall render content now_id now_ts now_upd s,
         snd (sendMessage render content now_id now_ts now_upd s) = None ->
         fst (fst (sendMessage render content now_id now_ts now_upd s)) = s)
  /\ (forall render files s,
         snd (uploadDocuments render files s) = None ->
         fst (fst (uploadDocuments render files s)) = s)
  /\ (forall (r : Reply Chat.t) (s : State),
         snd (sendMessage_settle r s)
         = match r with Http true (Some _) => [] | _ => sendFailed end)
  /\ (forall render token (r : Reply unit) (s : State),
         snd (uploadDocuments_uploaded render token r s) = None ->
         snd (fst (uploadDocuments_uploaded render token r s)) = uploadFailed)
  /\ (forall files (r : Reply Chat.t) (s : State),
         snd (uploadDocuments_settle files r s)
         = match r with
           | Http true (Some _) | Http false _ => documentsProcessed files
           | _ => uploadFailed
           end)
  /\ (forall render token (r : Reply unit) (s : State),
         snd (addWebsites_submitted render token r s) = None ->
         snd (fst (addWebsites_submitted render token r s)) = websitesFailed)
  /\ (forall urls (r : Reply Chat.t) (s : State),
         snd (addWebsites_settle urls r s)
         = match r with
           | Http true (Some _) | Http false _ => websitesProcessed urls
           | _ => websitesFailed
           end)
  /\ (forall render s,
         user render = None \/ currentChat render = None ->
         (forall content now_id now_ts now_upd,
             sendMessage render content now_id now_ts now_upd s
             = (s, noChatYet, None))
         /\ (forall files, uploadDocuments render files s = (s, noChatYet, None))
         /\ (forall urls, addWebsites render urls s = (s, noChatYet, None)))
  /\ (forall s content now_id now_ts now_upd r,
         isLoading s = false ->
         isLoading (run (SendMessage content now_id now_ts now_upd r) s) = false)
  /\ (forall s files r1 r2,
         ingestionIdle s -> ingestionIdle (run (IngestDocuments files r1 r2) s))
  /\ (forall s urls r1 r2,
         processingFiles s = false ->
         processingFiles (run (IngestWebsites urls r1 r2) s) = false).
Proof.
  repeat apply conj.
  - intros r s. by_reply r.
  - intros render token r s. unfold uploadDocuments_uploaded.
    destruct r as [|[|] [?|]], (currentChat render); cbn;
      solve [discriminate | intros _; apply uploadDocuments_finally_idle].
  - intros files r s. unfold uploadDocuments_settle.
    destruct r as [|[|] [?|]]; apply uploadDocuments_finally_idle.
  - intros render token r s. unfold addWebsites_submitted.
    destruct r as [|[|] ?], (currentChat render); cbn;
      solve [discriminate | reflexivity].
  - intros urls r s. by_reply r.
  - intros render content now_id now_ts now_upd s. unfold sendMessage.
    destruct (user render), (currentChat render), (getToken s); cbn;
      solve [discriminate | reflexivity].
  - intros render files s. unfold uploadDocuments.
    destruct (user render), (currentChat render), (getToken s); cbn;
      solve [discriminate | reflexivity].
  - intros r s. destruct r as [|[|] [?|]]; reflexivity.
  - intros render token r s. unfold uploadDocuments_uploaded.
    destruct r as [|[|] [?|]], (currentChat render); cbn;
      solve [discriminate | reflexivity].
  - intros files r s. destruct r as [|[|] [?|]]; reflexivity.
  - intros render token r s. unfold addWebsites_submitted.
    destruct r as [|[|] ?], (currentChat render); cbn;
      solve [discriminate | reflexivity].
  - intros urls r s. destruct r as [|[|] [?|]]; reflexivity.
  - intros render s H. unfold sendMessage, uploadDocuments, addWebsites.
    destruct H as [H | H]; rewrite H; [|destruct (user render)];
      repeat split.
  - intros s content now_id now_ts now_upd r Hidle.
    unfold run, andThen, finish, sendMessage.
    destruct (user s), (currentChat s), (getToken s); cbn; try exact Hidle.
    destruct r as [|[|] [?|]]; reflexivity.
  - intros s files r1 r2 Hidle.
    unfold run, andThen, finish, uploadDocuments, uploadDocuments_uploaded.
    destruct (user s), (currentChat s) eqn:Hcur, (getToken s);
      cbn; try exact Hidle.
    unfold setUploadingFiles at 2. cbn [currentChat]. rewrite Hcur.
    destruct r1 as [|[|] [?|]]; cbn; try (split; reflexivity).
    destruct r2 as [|[|] [?|]]; split; reflexivity.
  - intros s urls r1 r2 Hidle.
    unfold run, andThen, finish, addWebsites, addWebsites_submitted.
    destruct (user s), (currentChat s) eqn:Hcur, (getToken s);
      cbn; try exact Hidle.
    destruct r1 as [|[|] ?]; cbn; try reflexivity;
      destruct r2 as [|[|] [?|]]; reflexivity.
Qed.

Lemma busy_flags_false_after_completion_witness :
  isLoading (fst (sendMessage_settle NetworkError Sample.responding)) = false
  /\ snd (sendMessage_settle (Http false None) Sample.responding) = sendFailed
  /\ ingestionIdle
       (fst (fst (uploadDocuments_uploaded Sample.idle "token" (Http false None)
                    (setUploadingFiles true Sample.idle))))
  /\ snd (fst (uploadDocuments_uploaded Sample.idle "token" (Http false None)
                  (setUploadingFiles true Sample.idle))) = uploadFailed
  /\ sendMessage (setCurrentChat None Sample.idle) "hello" 41 42 43 Sample.idle
     = (Sample.idle, noChatYet, None)
  /\ isLoading (run (SendMessage "hello" 41 42 43 NetworkError) Sample.idle) = false.
Proof.
  destruct busy_flags_false_after_completion
    as (Hsend & Hupload & _ & _ & _ & _ & _ & Hshown & Hupshown & _ & _ & _
        & Hguard & Hrun & _).
  split; [apply Hsend | split; [apply Hshown | split; [|split; [|split]]]].
  - apply Hupload. reflexivity.
  - apply Hupshown. reflexivity.
  - apply (Hguard (setCurrentChat None Sample.idle) Sample.idle).
    right. reflexivity.
  - apply Hrun. reflexivity.
Defined.

(* ================================================================== *)
(** ** A rename that fails *)

(** C6: when the rename request gets a non-success response or no
    response at all, the state the reply arrives in is left exactly as
    it is, so the entry keeps its title, and the failure is shown to
    the user; issuing the request changed nothing either. *)
Theorem rename_failure_keeps_entry
        (render s : State) (chatId newTitle : string) (r : Reply Chat.t) :
  refused r ->
  renameChat_settle render chatId r s = (s, renameFailed)
  /\ fst (fst (renameChat render chatId newTitle s)) = s
  /\ (forall chat, In chat (chats s) ->
                   In chat (chats (fst (renameChat_settle render chatId r s)))).
Proof.
  intros Hr.
  assert (E : renameChat_settle render chatId r s = (s, renameFailed)).
  { destruct r as [|ok json]; cbn in Hr.
    - reflexivity.
    - subst ok. reflexivity. }
  split; [exact E | split].
  - unfold renameChat. now destruct (getToken s).
  - rewrite E. trivial.
Qed.

Lemma rename_failure_keeps_entry_witness :
  renameChat_settle Sample.idle "A" (Http false None) Sample.idle
  = (Sample.idle, renameFailed)
  /\ renameChat_settle Sample.idle "A" NetworkError Sample.idle
     = (Sample.idle, renameFailed).
Proof.
  split.
  - apply (rename_failure_keeps_entry Sample.idle Sample.idle "A" "Renamed"
                                      (Http false None) eq_refl).
  - apply (rename_failure_keeps_entry Sample.idle Sample.idle "A" "Renamed"
                                      NetworkError I).
Defined.

(* ================================================================== *)
(** ** The optimistic echo lives in the active reference only *)

(** C10: the call of sendMessage writes the provisional message to the
    active reference and leaves the list of chats alone; a failing
    reply leaves both as it finds them.  So after a failed sendMessage
    the active session ends with the provisional message while the
    list, and with it the stored entry of that session, is what it was
    before the call. *)
Theorem provisional_message_only_in_active
        (render s : State) (content : string) (now_id now_ts now_upd : N)
        (u : User.t) (cur : Chat.t) (token : string) (r : Reply Chat.t) :
  user render = Some u ->
  currentChat render = Some cur ->
  getToken s = Some token ->
  refused r ->
  let userMessage := Message.mk (provisionalId now_id) Role.user content now_ts in
  let called := fst (fst (sendMessage render content now_id now_ts now_upd s)) in
  let failed := fst (sendMessage_settle r called) in
  chats called = chats s
  /\ chats failed = chats s
  /\ (exists echoed,
         currentChat failed = Some echoed
         /\ Chat.id echoed = Chat.id cur
         /\ Chat.messages echoed = Chat.messages cur ++ [userMessage])
  /\ (forall later, chats (fst (sendMessage_settle r later)) = chats later)
  /\ ((forall chat, In chat (chats s) -> ~ In userMessage (Chat.messages chat)) ->
      forall chat, In chat (chats failed) -> ~ In userMessage (Chat.messages chat)).
Proof.
  intros Hu Hc Ht Hr userMessage called failed.
  assert (Hfail : forall later,
             sendMessage_settle r later
             = (setIsLoading false later,
                [ConsoleError "Error sending message:";
                 ToastError "Failed to send message. Please try again."])).
  { intros later. destruct r as [|ok json]; cbn in Hr; [reflexivity|].
    subst ok. reflexivity. }
  subst called failed.
  rewrite (sendMessage_proceeds _ _ _ _ _ _ _ _ _ Hu Hc Ht), !Hfail.
  cbn [fst]. store_simpl.
  split; [reflexivity | split; [reflexivity | split; [|split]]].
  - eexists. split; [reflexivity|]. split; reflexivity.
  - intros later. rewrite Hfail. reflexivity.
  - trivial.
Qed.

Lemma provisional_message_only_in_active_witness :
  let called := fst (fst (sendMessage Sample.idle "What is RAG?" 41 42 43 Sample.idle)) in
  let failed := fst (sendMessage_settle (Http false None) called) in
  chats failed = [Sample.chatA; Sample.chatB]
  /\ exists echoed,
      currentChat failed = Some echoed
      /\ Chat.id echoed = "A"
      /\ Chat.messages echoed
         = [Message.mk "temp-41" Role.user "What is RAG?" 42].
Proof.
  intros called failed.
  destruct (provisional_message_only_in_active
              Sample.idle Sample.idle "What is RAG?" 41 42 43
              Sample.asha Sample.chatA "token" (Http false None)
              eq_refl eq_refl eq_refl eq_refl) as (_ & Hchats & Hecho & _).
  split; [exact Hchats | exact Hecho].
Defined.

(* ================================================================== *)
(** ** The active reference and the mapping *)

Lemma activeValid_same (s s' : State) :
  chats s' = chats s -> currentChat s' = currentChat s ->
  activeValid s -> activeValid s'.
Proof. unfold activeValid, keys. intros -> ->. trivial. Qed.

Lemma activeValid_rename render chatId r s :
  currentChat render = currentChat s ->
  activeValid s -> activeValid (fst (renameChat_settle render chatId r s)).
Proof.
  intros Hrender Hs. unfold renameChat_settle.
  destruct r as [|[|] [updatedChat|]]; try exact Hs.
  rewrite Hrender. unfold activeValid, keys, currentIs in *.
  destruct (currentChat s) as [cur|] eqn:Hcur; cbn.
  - destruct (Chat.id cur =? chatId) eqn:E; cbn; store_simpl.
    + apply String.eqb_eq in E. rewrite E in Hs.
      apply in_map. now apply in_replaceById.
    + apply String.eqb_neq in E. rewrite Hcur.
      now apply in_ids_replaceById_other.
  - store_simpl. now rewrite Hcur.
Qed.

Lemma activeValid_remove chatId r s :
  activeValid s -> activeValid (fst (deleteChat_settle s chatId r s)).
Proof.
  intros Hs. unfold deleteChat_settle.
  destruct r as [|[|] json]; try exact Hs.
  unfold activeValid, keys, currentIs in *.
  destruct (currentChat s) as [cur|] eqn:Hcur; cbn.
  - destruct (Chat.id cur =? chatId) eqn:E; cbn; store_simpl.
    + destruct (Js.first_or_null (removeById chatId (chats s))) as [next|] eqn:F;
        [|exact I].
      apply in_map. now apply first_or_null_in.
    + apply String.eqb_neq in E. rewrite Hcur.
      apply in_ids_removeById. now split.
  - store_simpl. now rewrite Hcur.
Qed.

(** C4, as the specification words it, fails when two removals
    overlap: with chats A and B and B active, both removals are
    requested before either reply; the reply for A leaves [B]; the
    reply for B empties the list and, B having been active in the
    closure, picks the first chat of the closure's list without B,
    which is A. *)
Lemma overlapping_removals_leave_dangling_active :
  let s0 := Sample.idleB in
  let callA := fst (fst (deleteChat s0 "A" s0)) in
  let callB := fst (fst (deleteChat callA "B" callA)) in
  let replyA := fst (deleteChat_settle s0 "A" (Http true None) callB) in
  let replyB := fst (deleteChat_settle callA "B" (Http true None) replyA) in
  activeValid s0
  /\ chats replyB = []
  /\ currentChat replyB = Some Sample.chatA
  /\ ~ activeValid replyB.
Proof.
  cbn. repeat split.
  - unfold activeValid, keys. cbn. right. now left.
  - unfold activeValid, keys. cbn. auto.
Qed.

(** The same happens without any removal overlapping another: a
    message is sent in chat A, A is removed while the request is
    pending (B becomes active), and the late reply makes the removed
    session the active one. *)
Lemma late_send_reply_revives_removed_session :
  let s0 := Sample.idle in
  let sent := fst (fst (sendMessage s0 "What is RAG?" 41 42 43 s0)) in
  let removed := fst (deleteChat_settle sent "A" (Http true None) sent) in
  let replied := fst (sendMessage_settle (Http true (Some Sample.chatA')) removed) in
  chats removed = [Sample.chatB]
  /\ currentChat removed = Some Sample.chatB
  /\ chats replied = [Sample.chatB]
  /\ currentChat replied = Some Sample.chatA'
  /\ ~ activeValid replied.
Proof.
  cbn. repeat apply conj; try reflexivity.
  unfold activeValid, keys. cbn. intros [H | []]. discriminate H.
Qed.

(** C4, amended: for an operation that runs on its own (called on the
    render on screen, its replies applied before anything else), with
    replies that name the session asked for and a selection taken from
    the list, a valid active reference stays valid; and a successful
    removal of the active session leaves the list without it and makes
    its first entry, or nothing when it is empty, the active one. *)
Theorem active_reference_valid_after_operation (op : Operation) (s : State) :
  activeValid s ->
  honoured op s ->
  activeValid (run op s)
  /\ (forall chatId json token,
         op = Remove chatId (Http true json) ->
         getToken s = Some token ->
         currentIs (currentChat s) chatId = true ->
         chats (run op s) = removeById chatId (chats s)
         /\ currentChat (run op s) = Js.first_or_null (chats (run op s))).
Proof.
  intros Hs Hop. split.
  - destruct op; unfold run, andThen, finish; cbn [honoured] in Hop.
    + (* create *)
      unfold createChat. destruct (user s); [|exact Hs].
      destruct (getToken s); [|exact Hs]. cbn.
      destruct r as [|[|] [newChat|]]; try exact Hs.
      unfold activeValid, keys. cbn. now left.
    + (* select *)
      unfold activeValid, keys. cbn. now apply in_map.
    + (* rename *)
      unfold renameChat. destruct (getToken s); [|exact Hs].
      pose proof (activeValid_rename s chatId r s eq_refl Hs) as H.
      destruct (renameChat_settle s chatId r s). exact H.
    + (* remove *)
      unfold deleteChat. destruct (getToken s); [|exact Hs].
      pose proof (activeValid_remove chatId r s Hs) as H.
      destruct (deleteChat_settle s chatId r s). exact H.
    + (* sendMessage *)
      unfold sendMessage, namesSession in *.
      destruct (user s); [|exact Hs].
      destruct (currentChat s) as [cur|] eqn:Hcur; [|exact Hs].
      assert (Hin : In (Chat.id cur) (keys s))
        by (unfold activeValid in Hs; now rewrite Hcur in Hs).
      destruct (getToken s); [|exact Hs]. cbn.
      destruct r as [|[|] [updatedChat|]]; cbn;
        try still_valid Hcur.
      unfold activeValid, keys in *. store_simpl.
      apply in_map. apply in_replaceById. now rewrite Hop.
    + (* ingestDocuments *)
      unfold uploadDocuments, uploadDocuments_uploaded, uploadDocuments_settle,
        uploadDocuments_catch, uploadDocuments_finally, namesSession in *.
      destruct (user s); [|exact Hs].
      destruct (currentChat s) as [cur|] eqn:Hcur; [|exact Hs].
      assert (Hin : In (Chat.id cur) (keys s))
        by (unfold activeValid in Hs; now rewrite Hcur in Hs).
      destruct (getToken s); [|exact Hs]. cbn.
      destruct r1 as [|[|] [?|]]; cbn;
        try still_valid Hcur.
      destruct r2 as [|[|] [updatedChat|]]; cbn;
        try still_valid Hcur.
      unfold activeValid, keys in *. store_simpl.
      apply in_map. apply in_replaceById. now rewrite Hop.
    + (* ingestWebsites *)
      unfold addWebsites, addWebsites_submitted, addWebsites_settle,
        addWebsites_catch, addWebsites_finally, namesSession in *.
      destruct (user s); [|exact Hs].
      destruct (currentChat s) as [cur|] eqn:Hcur; [|exact Hs].
      assert (Hin : In (Chat.id cur) (keys s))
        by (unfold activeValid in Hs; now rewrite Hcur in Hs).
      destruct (getToken s); [|exact Hs]. cbn.
      destruct r1 as [|[|] ?]; cbn;
        try still_valid Hcur.
      destruct r2 as [|[|] [updatedChat|]]; cbn;
        try still_valid Hcur.
      unfold activeValid, keys in *. store_simpl.
      apply in_map. apply in_replaceById. now rewrite Hop.
    + (* the user becomes present *)
      unfold userEffect, fetchChats. cbn [user setUser].
      change (getToken (setUser (Some u) s)) with (getToken s).
      destruct (getToken s); [|exact Hs]. cbn.
      destruct r as [|[|] [fetchedChats|]]; try exact Hs.
      unfold activeValid, keys in *. cbn. store_simpl.
      destruct (currentChat s) as [cur|] eqn:Hcur; cbn; store_simpl.
      * exact Hop.
      * destruct fetchedChats as [|first rest]; cbn; store_simpl;
          rewrite ?Hcur; [exact I | now left].
    + (* logout *)
      unfold AuthContext.logoutAndRender, AuthContext.logout.
      destruct (user s); [exact I | exact Hs].
  - intros chatId json token -> Ht Hcur.
    unfold run, andThen, finish, deleteChat. rewrite Ht. cbn.
    rewrite Hcur. cbn. split; reflexivity.
Qed.

Lemma active_reference_valid_after_operation_witness :
  activeValid (run (Remove "A" (Http true None)) Sample.idle)
  /\ chats (run (Remove "A" (Http true None)) Sample.idle) = [Sample.chatB]
  /\ currentChat (run (Remove "A" (Http true None)) Sample.idle)
     = Some Sample.chatB.
Proof.
  assert (Hs : activeValid Sample.idle) by (cbn; now left).
  destruct (active_reference_valid_after_operation
              (Remove "A" (Http true None)) Sample.idle Hs I) as [Hvalid Hremove].
  destruct (Hremove "A" None "token" eq_refl eq_refl eq_refl) as [Hc Ha].
  split; [exact Hvalid | split; [exact Hc | exact Ha]].
Defined.

(* ================================================================== *)
(** ** Logout *)

Lemma refused_cases {A} (r : Reply A) :
  refused r -> r = NetworkError \/ exists json, r = Http false json.
Proof.
  destruct r as [|ok json]; cbn; [now left | intros ->; right; now exists json].
Qed.

(** C5, as the specification words it, fails for replies that arrive
    after the logout: a message is sent, the user logs out while the
    request is pending (which clears everything), and the successful
    reply then makes the returned session the active one again; a late
    reply to a create request puts its session back into the list. *)
Lemma late_reply_repopulates_after_logout :
  let called := fst (fst (sendMessage Sample.idle "What is RAG?" 41 42 43 Sample.idle)) in
  let out := fst (AuthContext.logoutAndRender called) in
  let late := fst (sendMessage_settle (Http true (Some Sample.chatA')) out) in
  let lateCreate := fst (createChat_settle (Http true (Some Sample.chatB)) out) in
  snd (sendMessage Sample.idle "What is RAG?" 41 42 43 Sample.idle) <> None
  /\ snd (createChat Sample.idle Sample.idle) <> None
  /\ cleared out
  /\ currentChat late = Some Sample.chatA'
  /\ ~ cleared late
  /\ chats lateCreate = [Sample.chatB]
  /\ ~ cleared lateCreate.
Proof.
  cbn. unfold cleared. cbn.
  repeat apply conj; try reflexivity; try discriminate.
  - intros [_ H]. discriminate H.
  - intros [H _]. discriminate H.
Qed.

(** C5, amended: when the user becomes absent the list of chats and
    the active reference are cleared, whatever is in flight; a reply
    that reports a failure and arrives in a cleared state leaves it
    cleared; a late successful reply is applied like any other, and
    for sendMessage that leaves the list empty and makes the returned
    session the active one. *)
Theorem logout_clears_sessions (s : State) (u : User.t) :
  user s = Some u ->
  let out := fst (AuthContext.logoutAndRender s) in
  cleared out
  /\ user out = None
  /\ getToken out = None
  /\ (forall k later, cleared later -> settlementRefused k ->
                      cleared (settle k later))
  /\ (forall updatedChat,
         chats (settle (SendSettled (Http true (Some updatedChat))) out) = []
         /\ currentChat (settle (SendSettled (Http true (Some updatedChat))) out)
            = Some updatedChat).
Proof.
  intros Hu out. subst out.
  unfold AuthContext.logoutAndRender, AuthContext.logout. rewrite Hu.
  cbn. unfold cleared. store_simpl.
  repeat apply conj; try reflexivity.
  - intros k later [Hchats Hcur] Hk.
    destruct k; cbn in Hk; apply refused_cases in Hk;
      destruct Hk as [-> | [json ->]]; cbn; store_simpl; auto.
  - intros updatedChat. cbn. store_simpl. split; reflexivity.
Qed.

Lemma logout_clears_sessions_witness :
  cleared (fst (AuthContext.logoutAndRender Sample.responding))
  /\ cleared (settle (SendSettled NetworkError)
                     (fst (AuthContext.logoutAndRender Sample.responding))).
Proof.
  destruct (logout_clears_sessions Sample.responding Sample.asha eq_refl)
    as (Hout & _ & _ & Hlate & _).
  split; [exact Hout|].
  apply Hlate; [exact Hout | exact I].
Defined.

(* ================================================================== *)
(** ** Create, rename and remove in any order *)

Lemma keys_called (e : Crud) (s : State) :
  match e with
  | CreateCalled _ | RenameCalled _ _ _ | RemoveCalled _ _ => crud s e = s
  | _ => True
  end.
Proof.
  destruct e; cbn; trivial.
  - unfold createChat. now destruct (user render), (getToken s).
  - unfold renameChat. now destruct (getToken s).
  - unfold deleteChat. now destruct (getToken s).
Qed.

Lemma keys_created newChat s :
  keys (crud s (Created newChat)) = Chat.id newChat :: keys s.
Proof. reflexivity. Qed.

Lemma keys_renamed render chatId updatedChat s :
  Chat.id updatedChat = chatId ->
  keys (crud s (Renamed render chatId updatedChat)) = keys s.
Proof.
  intros Hid. unfold keys. cbn.
  destruct (currentIs (currentChat render) chatId); cbn; store_simpl;
    now apply ids_replaceById.
Qed.

Lemma keys_removed render chatId json s k :
  In k (keys (crud s (Removed render chatId json)))
  <-> In k (keys s) /\ k <> chatId.
Proof.
  unfold keys. cbn.
  destruct (currentIs (currentChat render) chatId); cbn; store_simpl;
    apply in_ids_removeById.
Qed.

Lemma serviceHistory_created removedBefore events k :
  serviceHistory removedBefore events -> In k removedBefore ->
  ~ In k (createdIds events).
Proof.
  revert removedBefore.
  induction events as [|e rest IH]; intros removedBefore H Hk; cbn.
  - tauto.
  - destruct e; cbn in H |- *; try (now apply (IH removedBefore)).
    + destruct H as [Hfresh H]. intros [E | Hin].
      * apply Hfresh. now rewrite E.
      * now apply (IH removedBefore).
    + apply (IH (chatId :: removedBefore)); [exact H | now right].
Qed.

Lemma keys_after_events (events : list Crud) :
  forall (s : State) (removedBefore : list string),
    serviceHistory removedBefore events ->
    forall k,
      In k (keys (fold_left crud events s))
      <-> (In k (keys s) \/ In k (createdIds events))
          /\ ~ In k (removedIds events).
Proof.
  induction events as [|e rest IH]; intros s removedBefore H k.
  - cbn. tauto.
  - cbn [fold_left].
    destruct e; cbn [serviceHistory] in H;
      try (rewrite (keys_called (CreateCalled render) s)
           || rewrite (keys_called (RenameCalled render chatId newTitle) s)
           || rewrite (keys_called (RemoveCalled render chatId) s);
           now rewrite (IH s removedBefore H k)).
    + destruct H as [_ H].
      rewrite (IH _ removedBefore H k), keys_created. cbn. tauto.
    + destruct H as [Hid H].
      rewrite (IH _ removedBefore H k), (keys_renamed _ _ _ _ Hid). cbn. tauto.
    + rewrite (IH _ (chatId :: removedBefore) H k), keys_removed. cbn.
      pose proof (serviceHistory_created _ _ chatId H (or_introl eq_refl)) as Hnot.
      split.
      * intros [[[Hin Hne] | Hc] Hrem]; (split; [tauto|]);
          intros [E | Hr]; try tauto; subst k; tauto.
      * intros [[Hin | Hc] Hrem]; (split; [|tauto]).
        -- left. split; [exact Hin|]. intros ->. apply Hrem. now left.
        -- now right.
Qed.

(** C8: starting from an empty list, after any sequence of calls and
    successful replies of create, rename and remove (each reply applied
    to the state it finds, whatever render its closure holds), the
    identifiers in the list are exactly those the creates returned
    minus those the removes were given; the service's part is that a
    rename answers with the session it renamed and that a create does
    not hand out an identifier removed earlier.  A rename leaves the
    identifiers as they are. *)
Theorem key_set_is_created_minus_removed (events : list Crud) (s0 : State) :
  chats s0 = [] ->
  serviceHistory [] events ->
  (forall k, In k (keys (fold_left crud events s0))
             <-> In k (createdIds events) /\ ~ In k (removedIds events))
  /\ (forall render chatId updatedChat s,
         Chat.id updatedChat = chatId ->
         keys (crud s (Renamed render chatId updatedChat)) = keys s).
Proof.
  intros Hempty H. split.
  - intros k. rewrite (keys_after_events events s0 [] H k).
    unfold keys at 1. rewrite Hempty. cbn. tauto.
  - intros render chatId updatedChat s. apply keys_renamed.
Qed.

Lemma key_set_is_created_minus_removed_witness :
  let events :=
    [CreateCalled Sample.idle; CreateCalled Sample.idle;
     Created Sample.chatA;
     RenameCalled Sample.idle "A" "Renamed";
     Created Sample.chatB;
     RemoveCalled Sample.idleB "A";
     Renamed Sample.idle "A" (Chat.mk "A" "Renamed" [] 10 11);
     Removed Sample.idleB "A" None] in
  let start := setCurrentChat None (setChats (fun _ => []) Sample.idle) in
  In "B" (keys (fold_left crud events start))
  /\ ~ In "A" (keys (fold_left crud events start)).
Proof.
  intros events start.
  assert (Hh : serviceHistory [] events).
  { cbn. repeat split; auto. }
  destruct (key_set_is_created_minus_removed events start eq_refl Hh) as [Hkeys _].
  split.
  - apply Hkeys. cbn. split; [right; now left|].
    intros [E | []]. discriminate E.
  - intros Hin. apply Hkeys in Hin. destruct Hin as [_ Hrem].
    apply Hrem. cbn. now left.
Defined.

(* ================================================================== *)
(** ** URLs are checked before they enter the batch *)

Section UrlValidation.
Import UploadPanel.

Variable URL_ok : string -> bool.

(** Without a base, the URL parser rejects an input that has no
    scheme. *)
Hypothesis URL_needs_scheme : forall input, URL_ok input = true -> Url.hasScheme input = true.

Lemma removeAt_valid index us : allValid URL_ok us -> allValid URL_ok (removeAt index us).
Proof.
  unfold allValid. intros H. revert index.
  induction H as [|u rest Hu Hrest IH]; intros [|i]; cbn; auto.
Qed.

Lemma handleAddUrl_valid p :
  allValid URL_ok (urls p) -> allValid URL_ok (urls (fst (handleAddUrl URL_ok p))).
Proof.
  intros H. unfold handleAddUrl.
  destruct (Js.not_ (Js.trim (currentUrl p))); [exact H|].
  destruct (URL_ok (currentUrl p)) eqn:Hok; [|exact H].
  destruct (10 <=? length (urls p))%nat; [exact H|].
  cbn. apply Forall_app. split; [exact H|]. now constructor.
Qed.

Lemma act_valid p a : allValid URL_ok (urls p) -> allValid URL_ok (urls (act URL_ok p a)).
Proof.
  intros H. destruct a; cbn.
  - exact H.
  - now apply handleAddUrl_valid.
  - now apply removeAt_valid.
  - constructor.
Qed.

Lemma after_valid actions : allValid URL_ok (urls (after URL_ok actions)).
Proof.
  unfold after.
  assert (G : forall p, allValid URL_ok (urls p) ->
                        allValid URL_ok (urls (fold_left (act URL_ok) actions p))).
  { induction actions as [|a rest IH]; intros p Hp; cbn.
    - exact Hp.
    - apply IH. now apply act_valid. }
  apply G. constructor.
Qed.

Lemma handleAddUrl_rejects p :
  URL_ok (currentUrl p) = false ->
  fst (handleAddUrl URL_ok p) = p
  /\ (Js.trim (currentUrl p) <> "" ->
      snd (handleAddUrl URL_ok p) = [ToastError "Please enter a valid URL"]).
Proof.
  intros Hbad. unfold handleAddUrl. rewrite Hbad.
  destruct (Js.trim (currentUrl p)) eqn:E; cbn.
  - split; [reflexivity | congruence].
  - split; reflexivity.
Qed.

(** C7: whatever is typed, added, removed and sent in the panel, the
    batch only ever holds entries that [new URL] accepted; an entry it
    does not accept leaves the batch as it is and, unless it is blank,
    is answered with an error; "not-a-url" is such an entry; and the
    list that [handleUpload] hands to [addWebsites], which is the list
    in the body of the request, is the batch. *)
Theorem urls_validated_before_batch :
  (forall actions, allValid URL_ok (urls (after URL_ok actions)))
  /\ (forall p, URL_ok (currentUrl p) = false ->
                fst (handleAddUrl URL_ok p) = p
                /\ (Js.trim (currentUrl p) <> "" ->
                    snd (handleAddUrl URL_ok p)
                    = [ToastError "Please enter a valid URL"]))
  /\ (forall p, currentUrl p = "not-a-url" ->
                handleAddUrl URL_ok p
                = (p, [ToastError "Please enter a valid URL"]))
  /\ (forall actions render s us,
         In (CallAddWebsites us)
            (fst (handleUpload render (after URL_ok actions))) ->
         allValid URL_ok us
         /\ forall request,
             snd (addWebsites render us s) = Some request ->
             body request = JsonUrls us).
Proof.
  split; [exact after_valid | split; [exact handleAddUrl_rejects | split]].
  - intros p Hp.
    assert (Hbad : URL_ok (currentUrl p) = false).
    { destruct (URL_ok (currentUrl p)) eqn:E; [|reflexivity].
      apply URL_needs_scheme in E. rewrite Hp in E. discriminate E. }
    destruct (handleAddUrl_rejects p Hbad) as [Hfst Hsnd].
    rewrite (surjective_pairing (handleAddUrl URL_ok p)), Hfst, Hsnd;
      [reflexivity|].
    rewrite Hp. discriminate.
  - intros actions render s us Hcall. split.
    + pose proof (after_valid actions) as Hvalid.
      unfold handleUpload in Hcall.
      destruct (currentChat render); [|destruct Hcall].
      destruct ((length (files (after URL_ok actions)) =? 0)
                && (length (urls (after URL_ok actions)) =? 0))%nat;
        [destruct Hcall|].
      cbn [fst] in Hcall. apply in_app_or in Hcall.
      destruct Hcall as [Hf | Hu].
      * destruct (0 <? length (files (after URL_ok actions)))%nat;
          [destruct Hf as [Hf | []]; discriminate Hf | destruct Hf].
      * destruct (0 <? length (urls (after URL_ok actions)))%nat;
          [|destruct Hu].
        destruct Hu as [Hu | []]. injection Hu as <-. exact Hvalid.
    + intros request. unfold addWebsites.
      destruct (user render), (currentChat render), (getToken s); cbn;
        try discriminate.
      now intros [= <-].
Qed.

End UrlValidation.

Lemma urls_validated_before_batch_witness :
  let typed := [UploadPanel.Type_ "https://example.com/notes"; UploadPanel.AddUrl;
                UploadPanel.Type_ "not-a-url"; UploadPanel.AddUrl] in
  UploadPanel.urls (UploadPanel.after Url.hasScheme typed)
  = ["https://example.com/notes"]
  /\ allValid Url.hasScheme (UploadPanel.urls (UploadPanel.after Url.hasScheme typed))
  /\ UploadPanel.handleAddUrl Url.hasScheme
       (UploadPanel.mkPanel [] ["https://example.com/notes"] "not-a-url")
     = (UploadPanel.mkPanel [] ["https://example.com/notes"] "not-a-url",
        [ToastError "Please enter a valid URL"]).
Proof.
  intros typed.
  destruct (urls_validated_before_batch Url.hasScheme (fun _ H => H))
    as (Hbatch & _ & Hnot & _).
  split; [reflexivity | split].
  - apply Hbatch.
  - apply Hnot. reflexivity.
Defined.

(* ================================================================== *)
(** ** Which operation writes which busy flag *)

(** C9, as the specification words it, fails: addWebsites has no flag
    of its own.  While an upload is in its processing stretch (both of
    its flags set), a failing addWebsites call clears [processingFiles],
    the flag the upload had set; and on an idle store the call of
    addWebsites raises that same flag. *)
Lemma addWebsites_shares_processing_flag :
  let report := File.mk "report.pdf" 1024 in
  let uploading := fst (fst (uploadDocuments Sample.idle [report] Sample.idle)) in
  let accepted := uploadDocuments_uploaded Sample.idle "token" (Http true (Some tt)) uploading in
  let processing := fst (fst accepted) in
  let called := fst (fst (addWebsites processing ["https://example.com"] processing)) in
  let failed := fst (fst (addWebsites_submitted processing "token" NetworkError called)) in
  snd accepted <> None
  /\ uploadingFiles processing = true
  /\ processingFiles processing = true
  /\ uploadingFiles failed = true
  /\ processingFiles failed = false
  /\ processingFiles
       (fst (fst (addWebsites Sample.idle ["https://example.com"] Sample.idle)))
     <> processingFiles Sample.idle.
Proof. cbn. repeat apply conj; try reflexivity; discriminate. Qed.

(** C9, amended: the store has three flags, [isLoading] (responding),
    [uploadingFiles] and [processingFiles].  sendMessage raises the
    first when it proceeds, clears it at its reply and writes no
    other; uploadDocuments raises [uploadingFiles] when it proceeds,
    [processingFiles] once its upload is accepted (leaving
    [uploadingFiles] up), clears both when it ends and never writes
    the first; addWebsites raises [processingFiles], the flag of
    uploadDocuments' processing stretch, when it proceeds, clears it
    when it ends and never writes [uploadingFiles] or [isLoading];
    create, rename, remove and the loading of the chats write none. *)
Theorem busy_flags_by_operation :
  (forall render content now_id now_ts now_upd s,
      let s' := fst (fst (sendMessage render content now_id now_ts now_upd s)) in
      sameUploading s s' /\ sameProcessing s s')
  /\ (forall render files s,
         let s' := fst (fst (uploadDocuments render files s)) in
         sameResponding s s' /\ sameProcessing s s')
  /\ (forall render urls s,
         let s' := fst (fst (addWebsites render urls s)) in
         sameResponding s s' /\ sameUploading s s')
  /\ (forall k s,
         match k with
         | SendSettled _ =>
             sameUploading s (settle k s) /\ sameProcessing s (settle k s)
         | Uploaded _ _ _ | UploadSettled _ _ =>
             sameResponding s (settle k s)
         | Submitted _ _ _ | WebsitesSettled _ _ =>
             sameResponding s (settle k s) /\ sameUploading s (settle k s)
         | _ =>
             sameResponding s (settle k s) /\ sameUploading s (settle k s)
             /\ sameProcessing s (settle k s)
         end)
  /\ (forall render urls s request,
         snd (addWebsites render urls s) = Some request ->
         processingFiles (fst (fst (addWebsites render urls s))) = true)
  /\ (forall render token r s request,
         snd (uploadDocuments_uploaded render token r s) = Some request ->
         processingFiles (fst (fst (uploadDocuments_uploaded render token r s))) = true)
  /\ (forall render content now_id now_ts now_upd s request,
         snd (sendMessage render content now_id now_ts now_upd s) = Some request ->
         isLoading (fst (fst (sendMessage render content now_id now_ts now_upd s)))
         = true)
  /\ (forall render files s request,
         snd (uploadDocuments render files s) = Some request ->
         uploadingFiles (fst (fst (uploadDocuments render files s))) = true)
  /\ (forall r s, isLoading (settle (SendSettled r) s) = false)
  /\ (forall files r s, ingestionIdle (settle (UploadSettled files r) s))
  /\ (forall render token r s,
         match snd (uploadDocuments_uploaded render token r s) with
         | None => ingestionIdle (settle (Uploaded render token r) s)
         | Some _ => sameUploading s (settle (Uploaded render token r) s)
         end)
  /\ (forall urls r s, processingFiles (settle (WebsitesSettled urls r) s) = false)
  /\ (forall render token r s,
         match snd (addWebsites_submitted render token r s) with
         | None => processingFiles (settle (Submitted render token r) s) = false
         | Some _ => sameProcessing s (settle (Submitted render token r) s)
         end).
Proof.
  unfold sameResponding, sameUploading, sameProcessing.
  repeat apply conj.
  - intros render content now_id now_ts now_upd s. unfold sendMessage.
    destruct (user render), (currentChat render), (getToken s); cbn; auto.
  - intros render files s. unfold uploadDocuments.
    destruct (user render), (currentChat render), (getToken s); cbn; auto.
  - intros render urls s. unfold addWebsites.
    destruct (user render), (currentChat render), (getToken s); cbn; auto.
  - intros k s.
    destruct k as [render r|r|r|render chatId r|render chatId r
                   |render token r|files r|render token r|urls r];
      cbn [settle].
    + destruct r as [|[|] [fetched|]]; cbn; auto.
      destruct (currentChat render), fetched; cbn; auto.
    + by_reply r.
    + by_reply r.
    + destruct r as [|[|] ?]; cbn; auto.
      destruct (currentIs (currentChat render) chatId); cbn; auto.
    + destruct r as [|[|] [?|]]; cbn; auto.
      destruct (currentIs (currentChat render) chatId); cbn; auto.
    + unfold uploadDocuments_uploaded.
      destruct r as [|[|] [?|]], (currentChat render); cbn; auto.
    + by_reply r.
    + unfold addWebsites_submitted.
      destruct r as [|[|] ?], (currentChat render); cbn; auto.
    + by_reply r.
  - intros render urls s request. unfold addWebsites.
    destruct (user render), (currentChat render), (getToken s); cbn;
      solve [discriminate | reflexivity].
  - intros render token r s request. unfold uploadDocuments_uploaded.
    destruct r as [|[|] [?|]], (currentChat render); cbn;
      solve [discriminate | reflexivity].
  - intros render content now_id now_ts now_upd s request. unfold sendMessage.
    destruct (user render), (currentChat render), (getToken s); cbn;
      solve [discriminate | reflexivity].
  - intros render files s request. unfold uploadDocuments.
    destruct (user render), (currentChat render), (getToken s); cbn;
      solve [discriminate | reflexivity].
  - intros r s. by_reply r.
  - intros files r s. destruct r as [|[|] [?|]]; split; reflexivity.
  - intros render token r s. cbn [settle]. unfold uploadDocuments_uploaded.
    destruct r as [|[|] [?|]], (currentChat render); cbn;
      solve [reflexivity | split; reflexivity].
  - intros urls r s. by_reply r.
  - intros render token r s. cbn [settle]. unfold addWebsites_submitted.
    destruct r as [|[|] ?], (currentChat render); cbn; reflexivity.
Qed.

Lemma busy_flags_by_operation_witness :
  processingFiles
    (fst (fst (addWebsites Sample.idle ["https://example.com"] Sample.idle)))
  = true
  /\ uploadingFiles
       (fst (fst (addWebsites Sample.idle ["https://example.com"] Sample.idle)))
     = false
  /\ uploadingFiles
       (fst (fst (uploadDocuments Sample.idle [File.mk "notes.pdf" 2048] Sample.idle)))
     = true
  /\ isLoading
       (fst (fst (sendMessage Sample.idle "What is RAG?" 41 42 43 Sample.idle)))
     = true.
Proof.
  destruct busy_flags_by_operation
    as (_ & _ & Hweb & _ & Hraise & _ & Hsend & Hupload & _).
  split; [|split; [|split]].
  - eapply Hraise. reflexivity.
  - apply (Hweb Sample.idle ["https://example.com"] Sample.idle).
  - eapply Hupload. reflexivity.
  - eapply Hsend. reflexivity.
Defined.

(* ================================================================== *)
(** * Further properties of the components *)

(* ================================================================== *)
(** ** The upload panel: files *)

Section PanelFiles.
Import UploadPanel.

Lemma panel_eta (p : Panel) : mkPanel (files p) (urls p) (currentUrl p) = p.
Proof. destruct p; reflexivity. Qed.

Lemma oversized_withinLimit file : oversized file = negb (withinLimit file).
Proof. unfold oversized, withinLimit. apply N.ltb_antisym. Qed.

Lemma none_oversized_all_within newFiles :
  filter oversized newFiles = [] -> Forall (fun f => withinLimit f = true) newFiles.
Proof.
  induction newFiles as [|f rest IH]; cbn; [constructor|].
  destruct (oversized f) eqn:E; [discriminate|].
  intros H. constructor; [|auto].
  rewrite oversized_withinLimit in E. now apply negb_false_iff in E.
Qed.

Lemma no_oversized_length newFiles :
  (0 <? length (filter oversized newFiles))%nat = false ->
  filter oversized newFiles = [].
Proof.
  destruct (filter oversized newFiles); [reflexivity | cbn; discriminate].
Qed.

Lemma Forall_firstn {A} (P : A -> Prop) n (l : list A) :
  Forall P l -> Forall P (firstn n l).
Proof.
  intros H. revert n. induction H; intros [|n]; cbn; auto.
Qed.

Lemma Forall_removeAt {A} (P : A -> Prop) index (l : list A) :
  Forall P l -> Forall P (removeAt index l).
Proof.
  intros H. revert index. induction H; intros [|i]; cbn; auto.
Qed.

Lemma removeAt_firstn_skipn {A} index (l : list A) :
  removeAt index l = firstn index l ++ skipn (S index) l.
Proof.
  revert index. induction l as [|x rest IH]; intros [|i]; cbn; try reflexivity.
  now rewrite IH.
Qed.

Lemma handleFileChange_within render selected p :
  Forall (fun f => withinLimit f = true) (files p) ->
  Forall (fun f => withinLimit f = true)
         (files (fst (handleFileChange render selected p))).
Proof.
  intros Hp. unfold handleFileChange.
  destruct selected as [newFiles|]; [|exact Hp]. cbv zeta.
  destruct (0 <? length (filter oversized newFiles))%nat eqn:Hover; panel_simpl.
  - apply Forall_app. split; [exact Hp|].
    apply Forall_forall. intros f Hf. now apply filter_In in Hf.
  - pose proof (none_oversized_all_within _ (no_oversized_length _ Hover)) as Hnew.
    destruct (10 <? length (files render) + length newFiles)%nat; panel_simpl.
    + destruct (0 <? 10 - length (files render))%nat; panel_simpl; [|exact Hp].
      apply Forall_app. split; [exact Hp | now apply Forall_firstn].
    + apply Forall_app. now split.
Qed.

(** X1: whatever is selected, removed and sent, every file the panel
    holds is at most 5 MB: a file above the limit never enters the
    batch. *)
Theorem batch_files_within_size_limit (actions : list FileAction) :
  Forall (fun f => (File.size f <= 5 * 1024 * 1024)%N) (files (afterFiles actions)).
Proof.
  assert (G : forall p, Forall (fun f => withinLimit f = true) (files p) ->
                        Forall (fun f => withinLimit f = true)
                               (files (fold_left actFiles actions p))).
  { induction actions as [|a rest IH]; intros p Hp; cbn; [exact Hp|].
    apply IH. destruct a; cbn.
    - now apply handleFileChange_within.
    - now apply Forall_removeAt.
    - constructor. }
  eapply Forall_impl; [|apply G; constructor].
  intros f Hf. unfold withinLimit, maxFileSize in Hf. now apply N.leb_le in Hf.
Qed.


Lemma removeAt_length_le {A} index (l : list A) :
  (length (removeAt index l) <= length l)%nat.
Proof.
  revert index. induction l as [|x rest IH]; intros [|i]; cbn; auto.
  specialize (IH i). lia.
Qed.



(** X3: when a selection holds a file above the size limit, the count
    limit is not looked at: every file of the selection within the size
    limit is added, however many files the panel already holds, and the
    size error is shown. *)
Theorem oversized_selection_skips_count_limit
        (render p : Panel) (newFiles : list File.t) :
  filter oversized newFiles <> [] ->
  let '(p', shown) := handleFileChange render (Some newFiles) p in
  files p' = files p ++ filter withinLimit newFiles
  /\ length (files p')
     = (length (files p) + length (filter withinLimit newFiles))%nat
  /\ shown = [ToastError "Some files exceed the 5MB limit and were not added"].
Proof.
  intros Hover. unfold handleFileChange. cbv zeta.
  destruct (filter oversized newFiles) as [|f rest] eqn:E; [contradiction|].
  change (0 <? length (f :: rest))%nat with true. cbv iota. panel_simpl.
  split; [reflexivity | split; [apply length_app | reflexivity]].
Qed.

Lemma oversized_selection_skips_count_limit_witness :
  let pdf := File.mk "notes.pdf" 2048 in
  let scan := File.mk "scan.pdf" (6 * 1024 * 1024) in
  let full := mkPanel [pdf; pdf; pdf; pdf; pdf; pdf; pdf; pdf; pdf; pdf] [] "" in
  length (files (fst (handleFileChange full (Some [scan; pdf; pdf]) full))) = 12%nat.
Proof.
  intros pdf scan full.
  pose proof (oversized_selection_skips_count_limit full full [scan; pdf; pdf]) as H.
  destruct (handleFileChange full (Some [scan; pdf; pdf]) full) as [p' shown].
  destruct H as (_ & Hlen & _); [cbn; discriminate|].
  exact Hlen.
Defined.

(** X4: removing the entry at an index keeps the entries before and
    after it in order; an index past the end removes nothing, and an
    index inside the list shortens it by one.  This is what
    [handleRemoveUrl] and [handleRemoveFile] do to their lists. *)
Theorem remove_entry_at_index (index : nat) (render p : Panel) :
  urls (handleRemoveUrl index p)
  = firstn index (urls p) ++ skipn (S index) (urls p)
  /\ files (handleRemoveFile render index p)
     = firstn index (files render) ++ skipn (S index) (files render)
  /\ ((length (urls p) <= index)%nat -> handleRemoveUrl index p = p)
  /\ ((index < length (urls p))%nat ->
      S (length (urls (handleRemoveUrl index p))) = length (urls p))
  /\ files (handleRemoveUrl index p) = files p
  /\ urls (handleRemoveFile render index p) = urls p.
Proof.
  unfold handleRemoveUrl, handleRemoveFile. cbn.
  rewrite !removeAt_firstn_skipn.
  split; [reflexivity | split; [reflexivity | split; [|split; [|split; reflexivity]]]].
  - intros Hout. unfold setUrls.
    rewrite firstn_all2 by exact Hout.
    rewrite skipn_all2 by lia. rewrite app_nil_r. apply panel_eta.
  - intros Hin. rewrite length_app, length_firstn, length_skipn. lia.
Qed.

Lemma remove_entry_at_index_witness :
  let p := mkPanel [] ["https://a.example"; "https://b.example"] "" in
  handleRemoveUrl 5 p = p
  /\ S (length (urls (handleRemoveUrl 0 p))) = length (urls p).
Proof.
  intros p.
  destruct (remove_entry_at_index 5 p p) as (_ & _ & Hout & _).
  destruct (remove_entry_at_index 0 p p) as (_ & _ & _ & Hin & _).
  split; [apply Hout; cbn; lia | apply Hin; cbn; lia].
Defined.

(** X5: whatever [new URL] accepts and whatever is typed, added,
    removed and sent, the batch never holds more than ten URLs. *)
Theorem batch_urls_capped (URL_ok : string -> bool) (actions : list Action) :
  (length (urls (after URL_ok actions)) <= 10)%nat.
Proof.
  unfold after.
  assert (G : forall p, (length (urls p) <= 10)%nat ->
                        (length (urls (fold_left (act URL_ok) actions p)) <= 10)%nat).
  { induction actions as [|a rest IH]; intros p Hp; cbn; [exact Hp|].
    apply IH. destruct a; cbn.
    - exact Hp.
    - unfold handleAddUrl.
      destruct (Js.not_ (Js.trim (currentUrl p))); [exact Hp|].
      destruct (URL_ok (currentUrl p)); [|exact Hp].
      destruct (10 <=? length (urls p))%nat eqn:Hcap; [exact Hp|].
      apply Nat.leb_gt in Hcap. cbn. rewrite length_app. cbn. lia.
    - pose proof (removeAt_length_le index (urls p)). lia.
    - lia. }
  apply G. cbn. lia.
Qed.

(** X6: [handleUpload] calls the store only with a chat active and
    something to send (otherwise it shows an error and calls nothing);
    it never hands over an empty list, what it hands over are the
    panel's lists, and [uploadDocuments] is never called after
    [addWebsites]. *)
Theorem handleUpload_calls_in_order (render : State) (p : Panel) :
  let calls := fst (handleUpload render p) in
  (currentChat render = None \/ (files p = [] /\ urls p = []) ->
   calls = [] /\ snd (handleUpload render p) <> [])
  /\ (forall fs, In (CallUploadDocuments fs) calls -> fs = files p /\ fs <> [])
  /\ (forall us, In (CallAddWebsites us) calls -> us = urls p /\ us <> [])
  /\ (forall before us later fs,
         calls = before ++ CallAddWebsites us :: later ->
         ~ In (CallUploadDocuments fs) later)
  /\ (calls <> [] -> snd (handleUpload render p) = []).
Proof.
  unfold handleUpload.
  destruct (currentChat render) as [cur|]; cbn.
  2:{ repeat split; try contradiction; try discriminate.
      - intros before us later fs H. now destruct before. }
  destruct (files p) as [|f fs'], (urls p) as [|u us']; cbn.
  - repeat split; try contradiction; try discriminate.
    intros before us later fs H. now destruct before.
  - split; [intros [H | [_ H]]; discriminate H|].
    split; [intros fs [H | []]; discriminate H|].
    split; [intros us [H | []]; injection H as <-; split; [reflexivity | discriminate]|].
    split; [|reflexivity].
    intros before us later fs H.
    destruct before as [|b [|b' before]]; [|discriminate H|discriminate H].
    injection H as _ <-. auto.
  - split; [intros [H | [H _]]; discriminate H|].
    split; [intros fs [H | []]; injection H as <-; split; [reflexivity | discriminate]|].
    split; [intros us [H | []]; discriminate H|].
    split; [|reflexivity].
    intros before us later fs H.
    destruct before as [|b [|b' before]]; discriminate H.
  - split; [intros [H | [H _]]; discriminate H|].
    split; [intros fs [H | [H | []]]; [|discriminate H];
            injection H as <-; split; [reflexivity | discriminate]|].
    split; [intros us [H | [H | []]]; [discriminate H|];
            injection H as <-; split; [reflexivity | discriminate]|].
    split; [|reflexivity].
    intros before us later fs H.
    destruct before as [|b [|b' [|b'' before]]]; try discriminate H.
    injection H as _ _ <-. auto.
Qed.

Lemma handleUpload_calls_in_order_witness :
  fst (handleUpload Sample.idle (mkPanel [] [] "https://a.example")) = []
  /\ snd (handleUpload Sample.idle (mkPanel [] [] "https://a.example")) <> [].
Proof.
  destruct (handleUpload_calls_in_order Sample.idle (mkPanel [] [] "https://a.example"))
    as (Hnone & _).
  apply Hnone. right. split; reflexivity.
Defined.

End PanelFiles.

(* ================================================================== *)
(** ** The sidebar and the chat input *)

Lemma not_trim_blank (text : string) :
  Js.not_ (Js.trim text) = true <-> Js.trim text = "".
Proof. destruct (Js.trim text); cbn; split; congruence. Qed.

(** X7: saving a title always leaves the editing mode and keeps the
    typed text; a blank title sends nothing and leaves the store as it
    is; any request it sends is the PATCH of that chat carrying the
    typed title as it is, untrimmed. *)
Theorem save_title_skips_blank
        (render s : State) (chatId : string) (e : ChatSidebar.Editing) :
  let '(e', (s', shown, request)) := ChatSidebar.handleSaveTitle render chatId e s in
  ChatSidebar.editingChatId e' = None
  /\ ChatSidebar.editingTitle e' = ChatSidebar.editingTitle e
  /\ s' = s
  /\ shown = []
  /\ (Js.trim (ChatSidebar.editingTitle e) = "" -> request = None)
  /\ (forall req, request = Some req ->
                  Js.trim (ChatSidebar.editingTitle e) <> ""
                  /\ method req = PATCH
                  /\ url req = (backendUrl ++ "/api/chats/" ++ chatId)%string
                  /\ body req = JsonTitle (ChatSidebar.editingTitle e)).
Proof.
  unfold ChatSidebar.handleSaveTitle, renameChat.
  destruct (Js.not_ (Js.trim (ChatSidebar.editingTitle e))) eqn:Hblank.
  - cbn. refine (conj eq_refl (conj eq_refl (conj eq_refl (conj eq_refl (conj _ _))))).
    + reflexivity.
    + intros req H. discriminate H.
  - assert (Hne : Js.trim (ChatSidebar.editingTitle e) <> "").
    { intros H. apply not_trim_blank in H. congruence. }
    destruct (getToken s); cbn;
      refine (conj eq_refl (conj eq_refl (conj eq_refl (conj eq_refl (conj _ _))))).
    + intros H. contradiction.
    + intros req [= <-]. cbn. auto.
    + reflexivity.
    + intros req H. discriminate H.
Qed.

Lemma save_title_skips_blank_witness :
  snd (snd (ChatSidebar.handleSaveTitle Sample.idle "A"
              (ChatSidebar.mkEditing (Some "A") "   ") Sample.idle)) = None.
Proof.
  pose proof (save_title_skips_blank Sample.idle Sample.idle "A"
                (ChatSidebar.mkEditing (Some "A") "   ")) as H.
  destruct (ChatSidebar.handleSaveTitle Sample.idle "A"
              (ChatSidebar.mkEditing (Some "A") "   ") Sample.idle)
    as [e' [[s' shown] request]].
  destruct H as (_ & _ & _ & _ & Hblank & _).
  apply Hblank. reflexivity.
Defined.

(** X8: a key press in the chat input sends a request only if the key
    is Enter without Shift, the text is not blank, no reply is awaited
    and a chat is active; the request is then the POST to that chat
    with the text exactly as typed, and the text area is emptied. *)
Theorem key_press_sends_only_on_enter
        (render s : State) (key : string) (shiftKey : bool) (message : string)
        (now_id now_ts now_upd : N) (request : Request) :
  snd (snd (ChatInput.handleKeyDown render key shiftKey message
                                    now_id now_ts now_upd s)) = Some request ->
  key = "Enter"
  /\ shiftKey = false
  /\ Js.trim message <> ""
  /\ isLoading render = false
  /\ (exists cur, currentChat render = Some cur
                  /\ url request
                     = (backendUrl ++ "/api/chats/" ++ Chat.id cur
                        ++ "/messages")%string)
  /\ method request = POST
  /\ body request = JsonContent message
  /\ fst (ChatInput.handleKeyDown render key shiftKey message
                                  now_id now_ts now_upd s) = "".
Proof.
  unfold ChatInput.handleKeyDown, ChatInput.handleSubmit, sendMessage.
  destruct (key =? "Enter") eqn:Hkey; [|discriminate].
  apply String.eqb_eq in Hkey.
  destruct shiftKey; [discriminate|]. cbn [negb andb].
  destruct (Js.not_ (Js.trim message)) eqn:Hblank; [discriminate|].
  destruct (isLoading render); [discriminate|].
  destruct (currentChat render) as [cur|]; [|discriminate]. cbn [orb].
  destruct (user render); [|discriminate].
  destruct (getToken s); [|discriminate].
  cbn. intros [= <-]. cbn.
  repeat split; trivial.
  - intros H. apply not_trim_blank in H. congruence.
  - now exists cur.
Qed.

Lemma key_press_sends_only_on_enter_witness :
  fst (ChatInput.handleKeyDown Sample.idle "Enter" false "What is RAG?"
                               41 42 43 Sample.idle) = "".
Proof.
  pose proof (key_press_sends_only_on_enter
                Sample.idle Sample.idle "Enter" false "What is RAG?" 41 42 43
                (mkRequest POST "http://localhost:8000/api/chats/A/messages"
                           "token" (JsonContent "What is RAG?"))
                eq_refl) as (_ & _ & _ & _ & _ & _ & _ & H).
  exact H.
Defined.

(** X9: the submit handler empties the text area before it calls the
    store; when the token is missing from the storage the store then
    returns without a request and without a message, so the text typed
    is dropped with nothing shown and nothing changed. *)
Theorem submit_without_token_drops_text
        (render s : State) (message : string) (now_id now_ts now_upd : N)
        (u : User.t) (cur : Chat.t) :
  Js.trim message <> "" ->
  isLoading render = false ->
  currentChat render = Some cur ->
  user render = Some u ->
  getToken s = None ->
  ChatInput.handleSubmit render message now_id now_ts now_upd s
  = ("", (s, [], None)).
Proof.
  intros Hmsg Hload Hcur Hu Htok.
  unfold ChatInput.handleSubmit, sendMessage.
  rewrite Hload, Hcur, Hu, Htok.
  destruct (Js.not_ (Js.trim message)) eqn:Hblank; [|reflexivity].
  apply not_trim_blank in Hblank. contradiction.
Qed.

Lemma submit_without_token_drops_text_witness :
  ChatInput.handleSubmit Sample.idle "What is RAG?" 41 42 43
                         (setItem_auth_token None Sample.idle)
  = ("", (setItem_auth_token None Sample.idle, [], None)).
Proof.
  apply (submit_without_token_drops_text
           Sample.idle (setItem_auth_token None Sample.idle) "What is RAG?"
           41 42 43 Sample.asha Sample.chatA);
    solve [reflexivity | discriminate].
Defined.

(* ================================================================== *)
(** ** The store: tokens, failures, unknown sessions *)

Lemma getToken_not_empty s token : getToken s = Some token -> token <> "".
Proof.
  unfold getToken. destruct (auth_token s) as [t|]; [|discriminate].
  destruct t; cbn; [discriminate|]. intros [= <-]. discriminate.
Qed.

(** X10: with no token in the storage (or an empty one) none of the
    seven operations issues a request or changes the state, whatever
    render its closure holds; and after a logout the storage holds no
    token. *)
Theorem no_token_no_request (render s : State) :
  getToken s = None ->
  issuesNothing (fetchChats render s) s
  /\ issuesNothing (createChat render s) s
  /\ (forall content now_id now_ts now_upd,
         issuesNothing (sendMessage render content now_id now_ts now_upd s) s)
  /\ (forall chatId, issuesNothing (deleteChat render chatId s) s)
  /\ (forall chatId newTitle, issuesNothing (renameChat render chatId newTitle s) s)
  /\ (forall files, issuesNothing (uploadDocuments render files s) s)
  /\ (forall urls, issuesNothing (addWebsites render urls s) s)
  /\ (forall before, getToken (fst (AuthContext.logoutAndRender before)) = None).
Proof.
  intros Htok. unfold issuesNothing.
  unfold fetchChats, createChat, sendMessage, deleteChat, renameChat,
    uploadDocuments, addWebsites. rewrite Htok.
  repeat apply conj; intros;
    try (destruct (user render), (currentChat render); split; reflexivity).
  unfold AuthContext.logoutAndRender, AuthContext.logout.
  destruct (user before); reflexivity.
Qed.

Lemma no_token_no_request_witness :
  let out := fst (AuthContext.logoutAndRender Sample.idle) in
  issuesNothing (createChat Sample.idle out) out
  /\ issuesNothing (deleteChat Sample.idle "A" out) out.
Proof.
  intros out.
  destruct (no_token_no_request Sample.idle out eq_refl)
    as (_ & Hcreate & _ & Hdelete & _).
  split; [exact Hcreate | apply Hdelete].
Defined.

(** X11: every request an operation issues goes to the chat routes of
    the backend and carries, as bearer, the token that is in the storage
    at the time of the call, which is not empty.  This holds for the
    request of the call and for the re-read of the chat that follows an
    accepted upload or submission of websites: the re-read is a GET
    under the same routes with the token the call took, whatever the
    storage holds by then. *)
Theorem requests_carry_stored_token (render s : State) :
  authorised s (fetchChats render s)
  /\ authorised s (createChat render s)
  /\ (forall content now_id now_ts now_upd,
         authorised s (sendMessage render content now_id now_ts now_upd s))
  /\ (forall chatId, authorised s (deleteChat render chatId s))
  /\ (forall chatId newTitle, authorised s (renameChat render chatId newTitle s))
  /\ (forall files, authorised s (uploadDocuments render files s))
  /\ (forall urls, authorised s (addWebsites render urls s))
  /\ (forall token r later next,
         snd (uploadDocuments_uploaded render token r later) = Some next ->
         rereadWith token next)
  /\ (forall token r later next,
         snd (addWebsites_submitted render token r later) = Some next ->
         rereadWith token next)
  /\ (forall files first r later next,
         snd (uploadDocuments render files s) = Some first ->
         snd (uploadDocuments_uploaded render (bearer first) r later) = Some next ->
         getToken s = Some (bearer next) /\ bearer next <> ""
         /\ rereadWith (bearer first) next)
  /\ (forall urls first r later next,
         snd (addWebsites render urls s) = Some first ->
         snd (addWebsites_submitted render (bearer first) r later) = Some next ->
         getToken s = Some (bearer next) /\ bearer next <> ""
         /\ rereadWith (bearer first) next).
Proof.
  assert (Hcalls :
    authorised s (fetchChats render s)
    /\ authorised s (createChat render s)
    /\ (forall content now_id now_ts now_upd,
           authorised s (sendMessage render content now_id now_ts now_upd s))
    /\ (forall chatId, authorised s (deleteChat render chatId s))
    /\ (forall chatId newTitle, authorised s (renameChat render chatId newTitle s))
    /\ (forall files, authorised s (uploadDocuments render files s))
    /\ (forall urls, authorised s (addWebsites render urls s))).
  { unfold authorised, fetchChats, createChat, sendMessage, deleteChat,
      renameChat, uploadDocuments, addWebsites.
    destruct (getToken s) as [token|] eqn:Htok.
    - pose proof (getToken_not_empty s token Htok) as Hne.
      repeat apply conj; intros;
        destruct (user render), (currentChat render);
        cbn in *; try discriminate;
        match goal with H : Some _ = Some _ |- _ => injection H as <- end;
        cbn; auto.
    - repeat apply conj; intros;
        destruct (user render), (currentChat render); cbn in *; discriminate. }
  assert (Hup : forall token r later next,
             snd (uploadDocuments_uploaded render token r later) = Some next ->
             rereadWith token next).
  { intros token r later next. unfold uploadDocuments_uploaded, rereadWith.
    destruct r as [|[|] [?|]], (currentChat render); cbn; try discriminate.
    intros [= <-]. cbn. auto. }
  assert (Hweb : forall token r later next,
             snd (addWebsites_submitted render token r later) = Some next ->
             rereadWith token next).
  { intros token r later next. unfold addWebsites_submitted, rereadWith.
    destruct r as [|[|] ?], (currentChat render); cbn; try discriminate.
    intros [= <-]. cbn. auto. }
  destruct Hcalls as (H1 & H2 & H3 & H4 & H5 & H6 & H7).
  repeat (split; [assumption|]). split.
  - intros files first r later next Hfirst Hnext.
    destruct (H6 files first Hfirst) as (Htok & Hne & _).
    pose proof (Hup _ _ _ _ Hnext) as Hre.
    destruct Hre as (Hb & Hrest).
    split; [rewrite Hb; exact Htok
           | split; [rewrite Hb; exact Hne | exact (conj Hb Hrest)]].
  - intros urls first r later next Hfirst Hnext.
    destruct (H7 urls first Hfirst) as (Htok & Hne & _).
    pose proof (Hweb _ _ _ _ Hnext) as Hre.
    destruct Hre as (Hb & Hrest).
    split; [rewrite Hb; exact Htok
           | split; [rewrite Hb; exact Hne | exact (conj Hb Hrest)]].
Qed.

Lemma requests_carry_stored_token_witness :
  getToken Sample.idle
  = Some (bearer (mkRequest DELETE "http://localhost:8000/api/chats/A" "token" NoBody))
  /\ rereadWith "token"
       (mkRequest GET "http://localhost:8000/api/chats/A" "token" NoBody).
Proof.
  destruct (requests_carry_stored_token Sample.idle Sample.idle)
    as (_ & _ & _ & Hdelete & _ & _ & _ & Hreread & _).
  split.
  - apply (Hdelete "A"). reflexivity.
  - apply (Hreread "token" (Http true (Some tt))
                   (setItem_auth_token None Sample.idle)).
    reflexivity.
Defined.

(** X12: a reply that reports a failure (no answer, or a non-success
    status), to whichever operation and in whatever state it arrives,
    leaves the list of chats, the active session, the user and the
    token as they are. *)
Theorem failed_reply_keeps_sessions (k : Settlement) (s : State) :
  settlementRefused k ->
  chats (settle k s) = chats s
  /\ currentChat (settle k s) = currentChat s
  /\ user (settle k s) = user s
  /\ auth_token (settle k s) = auth_token s.
Proof.
  intros Hk.
  destruct k; cbn in Hk; apply refused_cases in Hk;
    destruct Hk as [-> | [json ->]]; cbn; auto.
Qed.

Lemma failed_reply_keeps_sessions_witness :
  chats (settle (UploadSettled [] NetworkError) Sample.idle) = chats Sample.idle
  /\ currentChat (settle (DeleteSettled Sample.idle "A" (Http false None)) Sample.idle)
     = currentChat Sample.idle.
Proof.
  split.
  - apply (failed_reply_keeps_sessions (UploadSettled [] NetworkError) Sample.idle I).
  - apply (failed_reply_keeps_sessions
             (DeleteSettled Sample.idle "A" (Http false None)) Sample.idle eq_refl).
Defined.

Lemma chats_deleteChat_settle render chatId json s :
  chats (fst (deleteChat_settle render chatId (Http true json) s))
  = removeById chatId (chats s).
Proof.
  unfold deleteChat_settle.
  now destruct (currentIs (currentChat render) chatId).
Qed.

Lemma chats_renameChat_settle render chatId updatedChat s :
  chats (fst (renameChat_settle render chatId (Http true (Some updatedChat)) s))
  = replaceById chatId updatedChat (chats s).
Proof.
  unfold renameChat_settle.
  now destruct (currentIs (currentChat render) chatId).
Qed.

Lemma removeById_unknown chatId prevChats :
  ~ In chatId (map Chat.id prevChats) -> removeById chatId prevChats = prevChats.
Proof.
  unfold removeById. induction prevChats as [|chat rest IH]; cbn; [reflexivity|].
  intros Hnot. destruct (Chat.id chat =? chatId) eqn:E.
  - apply String.eqb_eq in E. tauto.
  - cbn. rewrite IH; tauto.
Qed.

Lemma replaceById_unknown key updatedChat prevChats :
  ~ In key (map Chat.id prevChats) ->
  replaceById key updatedChat prevChats = prevChats.
Proof.
  unfold replaceById. induction prevChats as [|chat rest IH]; cbn; [reflexivity|].
  intros Hnot. destruct (Chat.id chat =? key) eqn:E.
  - apply String.eqb_eq in E. tauto.
  - rewrite IH; tauto.
Qed.

(** X13: after the successful reply to a delete, in whatever state it
    arrives, the identifier is no longer in the list, every other
    identifier is there exactly if it was, and the list is not longer;
    deleting an identifier that is not in the list leaves the list as
    it is, so a second reply for the same delete changes nothing. *)
Theorem deleted_session_is_gone
        (render s : State) (chatId : string) (json : option unit) :
  let s' := fst (deleteChat_settle render chatId (Http true json) s) in
  ~ In chatId (keys s')
  /\ (forall k, k <> chatId -> (In k (keys s') <-> In k (keys s)))
  /\ (length (chats s') <= length (chats s))%nat
  /\ (~ In chatId (keys s) -> chats s' = chats s)
  /\ (forall render' json',
         chats (fst (deleteChat_settle render' chatId (Http true json') s'))
         = chats s').
Proof.
  cbv zeta. unfold keys. rewrite chats_deleteChat_settle.
  split; [|split; [|split; [|split]]].
  - intros H. apply in_ids_removeById in H. tauto.
  - intros k Hk. rewrite in_ids_removeById. tauto.
  - unfold removeById. apply filter_length_le.
  - apply removeById_unknown.
  - intros render' json'. rewrite chats_deleteChat_settle, chats_deleteChat_settle.
    apply removeById_unknown. intros H. apply in_ids_removeById in H. tauto.
Qed.

Lemma deleted_session_is_gone_witness :
  chats (fst (deleteChat_settle Sample.idle "Z" (Http true None) Sample.idle))
  = chats Sample.idle.
Proof.
  destruct (deleted_session_is_gone Sample.idle Sample.idle "Z" None)
    as (_ & _ & _ & Hunknown & _).
  apply Hunknown. cbn. intros [H | [H | []]]; discriminate H.
Defined.

(** X14: the successful replies of rename and sendMessage never add or
    drop an entry: the list keeps its length, and when the identifier
    they are for is not in the list (the session was removed
    meanwhile) the list is left exactly as it is. *)
Theorem reply_for_unknown_session_adds_nothing
        (render s : State) (chatId : string) (updatedChat : Chat.t) :
  let renamed := fst (renameChat_settle render chatId (Http true (Some updatedChat)) s) in
  let replied := fst (sendMessage_settle (Http true (Some updatedChat)) s) in
  length (chats renamed) = length (chats s)
  /\ length (chats replied) = length (chats s)
  /\ (~ In chatId (keys s) -> chats renamed = chats s)
  /\ (~ In (Chat.id updatedChat) (keys s) -> chats replied = chats s).
Proof.
  cbv zeta. rewrite chats_renameChat_settle. cbn. store_simpl. unfold keys.
  split; [apply length_map | split; [apply length_map | split]];
    apply replaceById_unknown.
Qed.

Lemma reply_for_unknown_session_adds_nothing_witness :
  chats (fst (sendMessage_settle
                (Http true (Some (Chat.mk "Z" "Gone" [] 1 2))) Sample.idle))
  = chats Sample.idle.
Proof.
  destruct (reply_for_unknown_session_adds_nothing
              Sample.idle Sample.idle "Z" (Chat.mk "Z" "Gone" [] 1 2))
    as (_ & _ & _ & Hunknown).
  apply Hunknown. cbn. intros [H | [H | []]]; discriminate H.
Defined.

(* ================================================================== *)
(** ** Provisional identifiers *)

Lemma to_uint_not_nil (n : N) : N.to_uint n <> Decimal.Nil.
Proof.
  destruct n as [|p]; cbn; [discriminate|].
  apply DecimalPos.Unsigned.to_uint_nonnil.
Qed.

Lemma number_to_string_inj (n m : N) :
  Js.number_to_string n = Js.number_to_string m -> n = m.
Proof.
  unfold Js.number_to_string. intros H.
  apply (f_equal NilZero.uint_of_string) in H.
  rewrite !NilZero.usu in H by apply to_uint_not_nil.
  injection H as H. now apply DecimalN.Unsigned.to_uint_inj.
Qed.

(** X15: the provisional identifier is "temp-" followed by the time in
    decimal, from which the time is read back; so two messages get the
    same provisional identifier exactly when they are sent in the same
    millisecond. *)
Theorem provisional_ids_differ_with_time (n m : N) :
  (provisionalId n = provisionalId m <-> n = m)
  /\ (exists digits, provisionalId n = String.append "temp-" digits
                     /\ NilZero.uint_of_string digits = Some (N.to_uint n)
                     /\ N.of_uint (N.to_uint n) = n).
Proof.
  split.
  - split; [|now intros ->].
    unfold provisionalId. cbn. intros [= H]. now apply number_to_string_inj.
  - exists (Js.number_to_string n). split; [reflexivity | split].
    + apply NilZero.usu, to_uint_not_nil.
    + apply DecimalN.Unsigned.of_to.
Qed.

Lemma provisional_ids_differ_with_time_witness :
  provisionalId 1730000000000 <> provisionalId 1730000000001.
Proof.
  intros H.
  apply (proj1 (provisional_ids_differ_with_time 1730000000000 1730000000001)) in H.
  discriminate H.
Defined.

(* ================================================================== *)
(** ** Ingestion whose re-read is refused *)

Lemma flags_restored (s : State) :
  uploadingFiles s = false -> processingFiles s = false ->
  setProcessingFiles false (setUploadingFiles false s) = s.
Proof. destruct s; cbn. now intros -> ->. Qed.

(** X16: when the upload (or the submission of websites) is accepted
    and the re-read of the chat then gets a non-success status, the
    operation ends with the store exactly as before the call and still
    shows the message that the documents (or websites) were processed. *)
Theorem ingestion_reports_success_when_reread_refused
        (s : State) (files : list File.t) (urls : list string)
        (u : User.t) (cur : Chat.t) (token : string)
        (json : option Chat.t) (accepted : option unit) :
  user s = Some u -> currentChat s = Some cur -> getToken s = Some token ->
  uploadingFiles s = false -> processingFiles s = false ->
  (let '(s1, _, _) := uploadDocuments s files s in
   let '(s2, _, _) := uploadDocuments_uploaded s token (Http true (Some tt)) s1 in
   uploadDocuments_settle files (Http false json) s2
   = (s, [ToastSuccess (Js.length_to_string files
                        ++ " document(s) processed and ready for querying")%string]))
  /\ (let '(s1, _, _) := addWebsites s urls s in
      let '(s2, _, _) := addWebsites_submitted s token (Http true accepted) s1 in
      addWebsites_settle urls (Http false json) s2
      = (s, [ToastSuccess (Js.length_to_string urls
                           ++ " website(s) processed and ready for querying")%string])).
Proof.
  intros Hu Hc Ht Hup Hproc.
  unfold uploadDocuments, uploadDocuments_uploaded, uploadDocuments_settle,
    addWebsites, addWebsites_submitted, addWebsites_settle.
  rewrite Hu, Hc, Ht.
  unfold uploadDocuments_finally, addWebsites_finally.
  destruct s; cbn in *. subst. split; reflexivity.
Qed.

Lemma ingestion_reports_success_when_reread_refused_witness :
  uploadDocuments_settle [File.mk "notes.pdf" 2048] (Http false None)
    (setProcessingFiles true (setUploadingFiles true Sample.idle))
  = (Sample.idle, [ToastSuccess "1 document(s) processed and ready for querying"]).
Proof.
  apply (ingestion_reports_success_when_reread_refused
           Sample.idle [File.mk "notes.pdf" 2048] [] Sample.asha Sample.chatA
           "token" None None eq_refl eq_refl eq_refl eq_refl eq_refl).
Defined.

(* ================================================================== *)
(** ** Replies for different sessions *)

Lemma replaceById_comm k1 k2 c1 c2 prevChats :
  Chat.id c1 = k1 -> Chat.id c2 = k2 -> k1 <> k2 ->
  replaceById k1 c1 (replaceById k2 c2 prevChats)
  = replaceById k2 c2 (replaceById k1 c1 prevChats).
Proof.
  intros H1 H2 Hne. unfold replaceById. rewrite !map_map.
  apply map_ext. intros chat.
  destruct (Chat.id chat =? k2) eqn:E2, (Chat.id chat =? k1) eqn:E1.
  - apply String.eqb_eq in E1, E2. congruence.
  - assert (E : (k2 =? k1) = false) by (apply String.eqb_neq; congruence).
    now rewrite H2, E, E2.
  - assert (E : (k1 =? k2) = false) by (apply String.eqb_neq; congruence).
    now rewrite H1, E.
  - now rewrite E2.
Qed.

Lemma removeById_replaceById k1 k2 c2 prevChats :
  Chat.id c2 = k2 -> k1 <> k2 ->
  removeById k1 (replaceById k2 c2 prevChats)
  = replaceById k2 c2 (removeById k1 prevChats).
Proof.
  intros H2 Hne. unfold removeById, replaceById.
  induction prevChats as [|chat rest IH]; cbn; [reflexivity|].
  destruct (Chat.id chat =? k2) eqn:E2.
  - apply String.eqb_eq in E2.
    assert (E1 : (Chat.id chat =? k1) = false)
      by (apply String.eqb_neq; congruence).
    assert (E1' : (Chat.id c2 =? k1) = false)
      by (apply String.eqb_neq; congruence).
    rewrite E1, E1'. cbn. apply String.eqb_eq in E2. now rewrite E2, IH.
  - destruct (Chat.id chat =? k1); cbn; [exact IH|].
    now rewrite E2, IH.
Qed.

(** X17: a reply to sendMessage for one session and a successful
    rename or delete of another session give the same list of chats in
    whichever order the two replies arrive. *)
Theorem replies_for_different_sessions_commute
        (render s : State) (chatId : string) (renamed snapshot : Chat.t)
        (json : option unit) :
  Chat.id renamed = chatId ->
  Chat.id snapshot <> chatId ->
  let send := sendMessage_settle (Http true (Some snapshot)) in
  let rename := renameChat_settle render chatId (Http true (Some renamed)) in
  let delete := deleteChat_settle render chatId (Http true json) in
  chats (fst (rename (fst (send s)))) = chats (fst (send (fst (rename s))))
  /\ chats (fst (delete (fst (send s)))) = chats (fst (send (fst (delete s)))).
Proof.
  intros Hid Hne send rename delete. subst send rename delete.
  rewrite chats_renameChat_settle, chats_deleteChat_settle.
  cbn [sendMessage_settle fst]. store_simpl.
  rewrite chats_renameChat_settle, chats_deleteChat_settle.
  split.
  - apply replaceById_comm; auto.
  - apply removeById_replaceById; auto.
Qed.

Lemma replies_for_different_sessions_commute_witness :
  let send := sendMessage_settle (Http true (Some Sample.chatA')) in
  let delete := deleteChat_settle Sample.idle "B" (Http true None) in
  chats (fst (delete (fst (send Sample.idle))))
  = chats (fst (send (fst (delete Sample.idle)))).
Proof.
  intros send delete.
  apply (replies_for_different_sessions_commute
           Sample.idle Sample.idle "B" Sample.chatB Sample.chatA' None eq_refl).
  discriminate.
Defined.

(* ================================================================== *)
(** ** The provider of the user *)

Section Identity.
Import AuthProvider.

Lemma orElse_not_empty field fallback : fallback <> "" -> orElse field fallback <> "".
Proof.
  intros Hf. unfold orElse. destruct field as [t|]; [|exact Hf].
  destruct t; cbn; [exact Hf | discriminate].
Qed.

(** X18: the loading flag of the provider is false whenever one of its
    operations has come to an end: after the reply to the profile
    request, after a login or signup that is refused, after the welcome
    that ends a login or signup, and after a mount that finds no token. *)
Theorem auth_loading_false_at_end :
  (forall r a, AuthProvider.isLoading (fst (fetchUserProfile_settle r a)) = false)
  /\ (forall r a, match login_granted r a with
                  | (_, _, Awaiting _) => True
                  | (a', _, _) => AuthProvider.isLoading a' = false
                  end)
  /\ (forall r a, match signup_granted r a with
                  | (_, _, Awaiting _) => True
                  | (a', _, _) => AuthProvider.isLoading a' = false
                  end)
  /\ (forall r a, AuthProvider.isLoading (fst (fst (login_settle r a))) = false)
  /\ (forall r a, AuthProvider.isLoading (fst (fst (signup_settle r a))) = false)
  /\ (forall a, match mountEffect a with
                | (_, _, Awaiting _) => True
                | (a', _, _) => AuthProvider.isLoading a' = false
                end).
Proof.
  repeat apply conj.
  - intros [m | [|] [u | m]] a; reflexivity.
  - intros [m | [|] [d | m]] a; cbn; auto.
  - intros [m | [|] [d | m]] a; cbn; auto.
  - intros [m | [|] [u | m]] a; reflexivity.
  - intros [m | [|] [u | m]] a; reflexivity.
  - intros a. unfold mountEffect.
    destruct (AuthProvider.auth_token a) as [t|]; [|reflexivity].
    destruct (Js.not_ t); cbn; auto.
Qed.

(** X19: a login that does not get a parsable success response leaves
    the user and the stored token as they are, clears the loading flag,
    shows exactly one error, never an empty one, and rethrows; when the
    service gives a detail with its refusal, that detail is the text
    shown and thrown. *)
Theorem login_failure_keeps_identity (r : Fetched TokenJson) (a : Auth) :
  (forall data, r <> Responds true (inl data)) ->
  let '(a', shown, ending) := login_granted r a in
  AuthProvider.user a' = AuthProvider.user a
  /\ AuthProvider.auth_token a' = AuthProvider.auth_token a
  /\ AuthProvider.isLoading a' = false
  /\ exists message text,
      ending = Thrown message
      /\ shown = [ToastError text]
      /\ text <> ""
      /\ (forall errorData d,
             r = Responds false (inl errorData) ->
             detail errorData = Some d -> d <> "" ->
             text = d /\ message = d).
Proof.
  intros Hr. unfold login_granted, granted, rejected.
  assert (Hf : "Failed to login" <> "") by discriminate.
  destruct r as [m | [|] [data | m]]; cbn.
  - repeat split. exists m, (orElse (Some m) "Failed to login").
    repeat split; [now apply orElse_not_empty | discriminate | discriminate].
  - now elim (Hr data).
  - repeat split. exists m, (orElse (Some m) "Failed to login").
    repeat split; [now apply orElse_not_empty | discriminate | discriminate].
  - repeat split.
    exists (orElse (detail data) "Failed to login"),
           (orElse (Some (orElse (detail data) "Failed to login")) "Failed to login").
    split; [reflexivity | split; [reflexivity | split]].
    + now apply orElse_not_empty.
    + intros errorData d [= <-] Hd Hne. rewrite Hd.
      destruct d; [contradiction|]. cbn. split; reflexivity.
  - repeat split. exists m, (orElse (Some m) "Failed to login").
    repeat split; [now apply orElse_not_empty | discriminate | discriminate].
Qed.

Lemma login_failure_keeps_identity_witness :
  login_granted (Responds false (inl (mkTokenJson None (Some "Incorrect password"))))
                (mounting None)
  = (mkAuth None false None, [ToastError "Incorrect password"],
     Thrown "Incorrect password").
Proof.
  pose proof (login_failure_keeps_identity
                (Responds false (inl (mkTokenJson None (Some "Incorrect password"))))
                (mounting None)) as H.
  destruct (login_granted _ _) as [[a' shown] ending] eqn:E.
  destruct H as (_ & _ & _ & message & text & _ & _ & _ & _); [discriminate|].
  cbn in E. injection E as <- <- <-. reflexivity.
Defined.

(** X20: when the login request succeeds and the profile request that
    follows does not, the token just stored is removed again, the user
    is left as it was, no error is shown to the user, and the login
    still ends with "Logged in successfully" and without throwing. *)
Theorem login_reports_success_though_profile_fails
        (data : TokenJson) (r : Fetched User.t) (a : Auth) :
  (forall userData, r <> Responds true (inl userData)) ->
  let '(a1, _, _) := login_granted (Responds true (inl data)) a in
  let '(a2, shown, ending) := login_settle r a1 in
  AuthProvider.auth_token a1 = Some (stringOf (access_token data))
  /\ AuthProvider.auth_token a2 = None
  /\ AuthProvider.user a2 = AuthProvider.user a
  /\ AuthProvider.isLoading a2 = false
  /\ ending = Returned
  /\ In (ToastSuccess "Logged in successfully") shown
  /\ (forall text, ~ In (ToastError text) shown).
Proof.
  intros Hr. unfold login_granted, granted, login_settle, welcomed.
  destruct r as [m | [|] [userData | m]]; cbn.
  - repeat split; [right; now left|].
    intros text [H | [H | []]]; discriminate H.
  - now elim (Hr userData).
  - repeat split; [right; now left|].
    intros text [H | [H | []]]; discriminate H.
  - repeat split; [now left|]. intros text [H | []]; discriminate H.
  - repeat split; [now left|]. intros text [H | []]; discriminate H.
Qed.

Lemma login_reports_success_though_profile_fails_witness :
  login_settle (Responds false (inr "Unexpected end of JSON input"))
               (setItem "fresh" (setIsLoading true (mounting None)))
  = (mkAuth None false None, [ToastSuccess "Logged in successfully"], Returned).
Proof.
  pose proof (login_reports_success_though_profile_fails
                (mkTokenJson (Some "fresh") None)
                (Responds false (inr "Unexpected end of JSON input"))
                (setIsLoading true (mounting None))) as H.
  cbn in H. destruct H as (_ & _ & _ & _ & _ & _ & _); [discriminate|].
  reflexivity.
Defined.

(** X21: when the login request and the profile request both succeed,
    the profile request carried the token of the login response, the
    user is the profile, the token is in the storage, and the chat
    provider (which then sees a user) asks for the list of chats with
    that token and changes nothing else. *)
Theorem login_then_chats_requested
        (data : TokenJson) (userData : User.t) (token : string)
        (a : Auth) (s : State) :
  access_token data = Some token ->
  token <> "" ->
  let '(a1, _, next) := login_granted (Responds true (inl data)) a in
  let '(a2, shown, ending) := login_settle (Responds true (inl userData)) a1 in
  next = Awaiting (profileRequest token)
  /\ AuthProvider.user a2 = Some userData
  /\ AuthProvider.auth_token a2 = Some token
  /\ shown = [ToastSuccess "Logged in successfully"]
  /\ ending = Returned
  /\ userEffect (provide a2 s) (provide a2 s)
     = (provide a2 s, [],
        Some (mkRequest GET (ChatContext.backendUrl ++ "/api/chats")%string
                        token NoBody)).
Proof.
  intros Hdata Hne.
  unfold login_granted, granted, login_settle, welcomed. rewrite Hdata. cbn.
  repeat split.
  unfold userEffect, fetchChats, getToken, provide. cbn.
  destruct token; [contradiction | reflexivity].
Qed.

Lemma login_then_chats_requested_witness :
  userEffect
    (provide (mkAuth (Some Sample.asha) false (Some "fresh")) Sample.idle)
    (provide (mkAuth (Some Sample.asha) false (Some "fresh")) Sample.idle)
  = (provide (mkAuth (Some Sample.asha) false (Some "fresh")) Sample.idle,
     [], Some (mkRequest GET "http://localhost:8000/api/chats" "fresh" NoBody)).
Proof.
  pose proof (login_then_chats_requested
                (mkTokenJson (Some "fresh") None) Sample.asha "fresh"
                (mounting None) Sample.idle eq_refl) as H.
  cbn in H. destruct H as (_ & _ & _ & _ & _ & H); [discriminate|].
  exact H.
Defined.

(** X22: at mount a stored token is checked with the profile request;
    when the service refuses it, the token is removed from the storage
    and no user is set, so that the next mount finds no token and
    issues no request. *)
Theorem refused_stored_token_is_forgotten (token : string) (json : User.t + string) :
  token <> "" ->
  mountEffect (mounting (Some token))
  = (mounting (Some token), [], Awaiting (profileRequest token))
  /\ (let a' := fst (fetchUserProfile_settle (Responds false json)
                                            (mounting (Some token))) in
      a' = mkAuth None false None
      /\ mountEffect (mounting (AuthProvider.auth_token a'))
         = (mkAuth None false None, [], Returned)).
Proof.
  intros Hne. unfold mountEffect, mounting. cbn.
  destruct token; [contradiction|]. cbn. repeat split.
Qed.

Lemma refused_stored_token_is_forgotten_witness :
  mountEffect (mounting (Some "stale"))
  = (mounting (Some "stale"), [], Awaiting (profileRequest "stale")).
Proof.
  apply (refused_stored_token_is_forgotten "stale" (inr "")). discriminate.
Defined.

(** X23: a logout through the provider of the user, with a user
    present, followed by the effect of the chat provider, is the logout
    the chat provider's statements are about: the token leaves the
    storage, the user becomes absent, the list of chats and the active
    session are cleared without a request, and the three busy flags
    are left as they are. *)
Theorem provider_logout_seen_by_chats (a : Auth) (s : State) (u : User.t) :
  AuthProvider.user a = Some u ->
  let out := provide (fst (AuthProvider.logout a)) s in
  userEffect out out
  = (fst (AuthContext.logoutAndRender (provide a s)), [], None)
  /\ snd (AuthProvider.logout a) = snd (AuthContext.logoutAndRender (provide a s))
  /\ cleared (fst (fst (userEffect out out)))
  /\ getToken (fst (fst (userEffect out out))) = None
  /\ ChatContext.isLoading (fst (fst (userEffect out out))) = ChatContext.isLoading s
  /\ uploadingFiles (fst (fst (userEffect out out))) = uploadingFiles s
  /\ processingFiles (fst (fst (userEffect out out))) = processingFiles s.
Proof.
  intros Hu out. subst out.
  unfold AuthContext.logoutAndRender, AuthContext.logout, provide,
    AuthProvider.logout, cleared.
  cbn. rewrite Hu. cbn. repeat split.
Qed.

Lemma provider_logout_seen_by_chats_witness :
  cleared (fst (fst (userEffect
    (provide (fst (AuthProvider.logout (mkAuth (Some Sample.asha) false (Some "token"))))
             Sample.responding)
    (provide (fst (AuthProvider.logout (mkAuth (Some Sample.asha) false (Some "token"))))
             Sample.responding)))).
Proof.
  apply (provider_logout_seen_by_chats
           (mkAuth (Some Sample.asha) false (Some "token")) Sample.responding
           Sample.asha eq_refl).
Defined.

End Identity.
